(** * The CI/CD demo application (app.py): model and verified properties

    The application is a Flask service with four view functions
    ([home], [health], [echo], [info]) and two error handlers
    ([not_found], [internal_error]).  This file embeds

    - the values the views build (JSON documents, ISO timestamps),
    - the module-level configuration read when app.py is imported,
    - the views and error handlers of app.py, function by function,
    - the part of Flask's request dispatch that decides which of them
      runs for a request and what happens to an exception,

    and proves the properties of the service on that embedding. *)

From Stdlib Require Import ZArith List Ascii String Bool Lia.
From stdpp Require Import base gmap strings.

Local Open Scope string_scope.
Local Open Scope Z_scope.

(** ** JSON documents *)

Module Json.

(** What [request.get_json()] returns and [jsonify] accepts: Python's
    image of a JSON value.  A [dict] keeps its keys in insertion order,
    so an object is an association list.  The views never look inside a
    number; a float is carried as its binary64 bit pattern. *)
#[warnings="-register-all"]
Inductive json : Type :=
| JNull
| JBool (b : bool)
| JInt (n : Z)
| JFloat (bits : Z)
| JStr (s : string)
| JArr (items : list json)
| JObj (fields : list (string * json)).

Fixpoint assoc (k : string) (kvs : list (string * json)) : option json :=
  match kvs with
  | [] => None
  | (k', v) :: rest => if String.eqb k k' then Some v else assoc k rest
  end.

(** [d[k]] read through [dict.get]: [None] when [d] is not an object or
    has no such key. *)
Definition get (k : string) (d : json) : option json :=
  match d with
  | JObj kvs => assoc k kvs
  | _ => None
  end.

(** [d[k1][k2]...] *)
Fixpoint get_path (ks : list string) (d : json) : option json :=
  match ks with
  | [] => Some d
  | k :: ks' =>
      match get k d with
      | Some d' => get_path ks' d'
      | None => None
      end
  end.

(** [list(d.keys())] *)
Definition keys (d : json) : list string :=
  match d with
  | JObj kvs => map fst kvs
  | _ => []
  end.

Definition has_key (k : string) (d : json) : bool :=
  match get k d with Some _ => true | None => false end.

End Json.
Export Json.

(** ** Timestamps: [datetime.utcnow().isoformat()] *)

Module DateTime.

(** A naive [datetime] (no tzinfo), as [datetime.utcnow()] returns it. *)
Record datetime : Type := mkDateTime {
  year : Z; month : Z; day : Z;
  hour : Z; minute : Z; second : Z; microsecond : Z
}.

Definition is_leap (y : Z) : bool :=
  ((y mod 4 =? 0) && negb (y mod 100 =? 0)) || (y mod 400 =? 0).

Definition days_in_month (y m : Z) : Z :=
  if m =? 2 then (if is_leap y then 29 else 28)
  else if (m =? 4) || (m =? 6) || (m =? 9) || (m =? 11) then 30
  else 31.

(** The range checks of the [datetime] constructor (MINYEAR = 1,
    MAXYEAR = 9999): every [datetime] object satisfies them. *)
Definition valid (d : datetime) : Prop :=
  1 <= year d <= 9999 /\ 1 <= month d <= 12 /\
  1 <= day d <= days_in_month (year d) (month d) /\
  0 <= hour d < 24 /\ 0 <= minute d < 60 /\ 0 <= second d < 60 /\
  0 <= microsecond d < 1000000.

Definition validb (d : datetime) : bool :=
  (1 <=? year d) && (year d <=? 9999) && (1 <=? month d) && (month d <=? 12) &&
  (1 <=? day d) && (day d <=? days_in_month (year d) (month d)) &&
  (0 <=? hour d) && (hour d <? 24) && (0 <=? minute d) && (minute d <? 60) &&
  (0 <=? second d) && (second d <? 60) &&
  (0 <=? microsecond d) && (microsecond d <? 1000000).

Definition then_cmp (c c' : comparison) : comparison :=
  match c with Eq => c' | _ => c end.

(** [datetime.__lt__] and friends compare the field tuples. *)
Definition cmp (a b : datetime) : comparison :=
  then_cmp (year a ?= year b)
 (then_cmp (month a ?= month b)
 (then_cmp (day a ?= day b)
 (then_cmp (hour a ?= hour b)
 (then_cmp (minute a ?= minute b)
 (then_cmp (second a ?= second b)
           (microsecond a ?= microsecond b)))))).

Definition le (a b : datetime) : Prop := cmp a b <> Gt.

(** *** Formatting *)

Definition digit (d : Z) : ascii :=
  match d with
  | 0 => "0" | 1 => "1" | 2 => "2" | 3 => "3" | 4 => "4"
  | 5 => "5" | 6 => "6" | 7 => "7" | 8 => "8" | _ => "9"
  end%char.

(** [str(n)] for [n >= 0], least significant digit first onto [acc]. *)
Fixpoint decimal_digits (fuel : nat) (n : Z) (acc : list ascii) : list ascii :=
  match fuel with
  | O => acc
  | S fuel' =>
      let acc' := digit (n mod 10) :: acc in
      if n <? 10 then acc' else decimal_digits fuel' (n / 10) acc'
  end.

Definition decimal (n : Z) : list ascii :=
  decimal_digits (S (Z.to_nat n)) n [].

(** ["%0wd" % n]: the decimal digits, left-padded with zeros to [w]. *)
Definition fmt (w : nat) (n : Z) : list ascii :=
  let ds := decimal n in
  repeat "0"%char (w - length ds) ++ ds.

(** Exactly [w] digits of [n], most significant first: what [fmt w n]
    is when [n] has at most [w] digits (lemma [fmt_fixed]). *)
Fixpoint fixed (w : nat) (n : Z) : list ascii :=
  match w with
  | O => []
  | S w' => fixed w' (n / 10) ++ [digit (n mod 10)]
  end.

(** [date.isoformat() + "T" + _format_time(hh, mm, ss, us)]: the
    fraction is printed only when [microsecond] is not zero. *)
Definition iso_chars (d : datetime) : list ascii :=
  fmt 4 (year d) ++ "-"%char :: fmt 2 (month d) ++ "-"%char :: fmt 2 (day d) ++
  "T"%char :: fmt 2 (hour d) ++ ":"%char :: fmt 2 (minute d) ++
  ":"%char :: fmt 2 (second d) ++
  (if microsecond d =? 0 then [] else "."%char :: fmt 6 (microsecond d)).

Definition isoformat (d : datetime) : string :=
  string_of_list_ascii (iso_chars d).

(** The text of a timestamp with every field at its fixed width: what
    [iso_chars] is for a valid [datetime] (lemma [iso_chars_fixed]). *)
Definition iso_fixed (d : datetime) : list ascii :=
  fixed 4 (year d) ++ "-"%char :: fixed 2 (month d) ++ "-"%char ::
  fixed 2 (day d) ++ "T"%char :: fixed 2 (hour d) ++ ":"%char ::
  fixed 2 (minute d) ++ ":"%char :: fixed 2 (second d) ++
  (if microsecond d =? 0 then [] else "."%char :: fixed 6 (microsecond d)).

(** *** Reading a timestamp back *)

Definition is_digit (c : ascii) : bool :=
  let n := N_of_ascii c in (48 <=? n)%N && (n <=? 57)%N.

Definition digit_val (c : ascii) : Z := Z.of_N (N_of_ascii c) - 48.

(** Value of a run of decimal digits, [None] when a character is not one. *)
Fixpoint number_of (cs : list ascii) (acc : Z) : option Z :=
  match cs with
  | [] => Some acc
  | c :: cs' =>
      if is_digit c then number_of cs' (10 * acc + digit_val c) else None
  end.

(** The two shapes of a naive ISO-8601 timestamp,
    [YYYY-MM-DDTHH:MM:SS] and [YYYY-MM-DDTHH:MM:SS.ffffff], with nothing
    after them: no [Z], no [+hh:mm] offset. *)
Definition parse_chars (cs : list ascii) : option datetime :=
  match cs with
  | y1 :: y2 :: y3 :: y4 :: "-" :: m1 :: m2 :: "-" :: d1 :: d2 :: "T" ::
    h1 :: h2 :: ":" :: n1 :: n2 :: ":" :: s1 :: s2 :: rest =>
      match number_of [y1; y2; y3; y4] 0, number_of [m1; m2] 0,
            number_of [d1; d2] 0, number_of [h1; h2] 0,
            number_of [n1; n2] 0, number_of [s1; s2] 0 with
      | Some y, Some m, Some d, Some h, Some n, Some s =>
          match rest with
          | [] => Some (mkDateTime y m d h n s 0)
          | ["."; f1; f2; f3; f4; f5; f6] =>
              match number_of [f1; f2; f3; f4; f5; f6] 0 with
              | Some us => Some (mkDateTime y m d h n s us)
              | None => None
              end
          | _ => None
          end
      | _, _, _, _, _, _ => None
      end
  | _ => None
  end%char.

Definition fromisoformat (s : string) : option datetime :=
  match parse_chars (list_ascii_of_string s) with
  | Some d => if validb d then Some d else None
  | None => None
  end.

(** *** Comparing timestamps as text *)

Fixpoint chars_cmp (a b : list ascii) : comparison :=
  match a, b with
  | [], [] => Eq
  | [], _ :: _ => Lt
  | _ :: _, [] => Gt
  | x :: a', y :: b' =>
      then_cmp (N_of_ascii x ?= N_of_ascii y)%N (chars_cmp a' b')
  end.

(** [s < t], [s == t], [s > t] on Python strings: code point by code point. *)
Definition str_cmp (s t : string) : comparison :=
  chars_cmp (list_ascii_of_string s) (list_ascii_of_string t).

Definition str_le (s t : string) : Prop := str_cmp s t <> Gt.

End DateTime.
Export DateTime.

(** ** Exceptions *)

Module Exn.

(** What can escape a view of app.py: a werkzeug [HTTPException]
    ([BadRequest] is 400, [NotFound] 404, [UnsupportedMediaType] 415), the
    [OSError] of a failed [socket.gethostname()], or the [RecursionError]
    of a JSON body nested deeper than the interpreter allows. *)
Inductive exn : Type :=
| HTTPException (code : Z)
| OSError
| RecursionError.

Inductive result (A : Type) : Type :=
| Return (a : A)
| Raise (e : exn).
Arguments Return {A} a.
Arguments Raise {A} e.

#[global] Instance result_ret : MRet result := fun A a => Return a.

#[global] Instance result_bind : MBind result := fun A B k m =>
  match m with
  | Return a => k a
  | Raise e => Raise e
  end.

End Exn.
Export Exn.

(** ** Flask: requests, responses, [get_json], [jsonify] *)

Module Flask.

(** The request as werkzeug presents it to a view: [method] is
    upper-cased, [path] has no query string, [mimetype] is the media type
    of the Content-Type header (lower-cased, parameters dropped), [data]
    the raw body. *)
Record Request : Type := mkRequest {
  method : string;
  path : string;
  query_string : string;
  headers : list (string * string);
  mimetype : string;
  data : string
}.

Inductive Body : Type :=
| JsonBody (document : json)   (* the document given to [jsonify] *)
| ErrorPage (code : Z)         (* werkzeug's HTML page for an HTTP error *)
| NoBody.

(** Of a response, the status, the Content-Type, the Location of a
    redirect and the body are modelled.  [location] is the Location URL
    without its scheme and host, which are those of the request: its path
    and, when there is one, its query string. *)
Record Response : Type := mkResponse {
  status : Z;
  content_type : string;
  location : option string;
  body : Body
}.

(** [jsonify(d)]: the response whose body is the text of [d].  The text
    has the keys of every object sorted and writes a NaN or an infinity
    as a bare word; what is kept here is the document the text stands
    for, with the keys in the order of the dict ([Wire.strict] tells
    when the text is JSON). *)
Definition jsonify (d : json) : Response :=
  mkResponse 200 "application/json" None (JsonBody d).

(** A view returning the pair [(response, code)]. *)
Definition with_status (r : Response) (code : Z) : Response :=
  mkResponse code (content_type r) (location r) (body r).

(** An [HTTPException] turned into a response by werkzeug itself. *)
Definition default_error_response (code : Z) : Response :=
  mkResponse code "text/html; charset=utf-8" None (ErrorPage code).

(** [make_redirect_url(path, query_args)], after the host. *)
Definition redirect_url (target query : string) : string :=
  if String.eqb query "" then target else target +:+ "?" +:+ query.

(** [RequestRedirect.get_response()] *)
Definition redirect_response (target query : string) : Response :=
  mkResponse 308 "text/html; charset=utf-8" (Some (redirect_url target query))
             (ErrorPage 308).

(** [Flask.make_default_options_response()]: an empty 200 response that
    carries the Allow header. *)
Definition make_default_options_response : Response :=
  mkResponse 200 "text/html; charset=utf-8" None NoBody.

Definition is_json_response (r : Response) : bool :=
  String.eqb (content_type r) "application/json" &&
  match body r with JsonBody _ => true | _ => false end.

(** What [get_json()] does with a body whose Content-Type is not JSON
    differs between werkzeug releases: it returned [None] before 2.1,
    raises [BadRequest] in 2.1 and 2.2, [UnsupportedMediaType] since 2.3. *)
Inductive non_json_policy : Type :=
| ReturnsNone
| RaisesBadRequest
| RaisesUnsupportedMediaType.

(** What [json.loads] does with a text: it returns a value, raises
    [ValueError] ([JSONDecodeError]: the text is not JSON), or raises
    [RecursionError]: the nesting exhausts the interpreter's recursion
    limit, in the scanner or, for a value at the very limit, in the
    encoder that has to write it back. *)
Inductive parsed : Type :=
| Value (v : json)
| Invalid
| TooDeep.

(** The JSON layer and the release-dependent switches of the framework. *)
Record Framework : Type := mkFramework {
  loads : string -> parsed;         (* [json.loads] *)
  on_non_json : non_json_policy;
  merge_slashes : bool              (* werkzeug >= 1.0 merges doubled slashes *)
}.

Definition ends_with (suffix s : string) : bool :=
  let n := String.length suffix in
  let m := String.length s in
  (n <=? m)%nat && String.eqb (substring (m - n) n s) suffix.

(** [Request.is_json] *)
Definition is_json (req : Request) : bool :=
  let mt := mimetype req in
  String.eqb mt "application/json" ||
  (String.prefix "application/" mt && ends_with "+json" mt).

(** [Request.get_json()] with its default arguments: it catches the
    [ValueError] of a body that does not parse and raises [BadRequest]
    instead ([on_json_loading_failed]); any other exception of
    [json.loads] passes through. *)
Definition get_json (fw : Framework) (req : Request) : result json :=
  if is_json req then
    match loads fw (data req) with
    | Value v => Return v
    | Invalid => Raise (HTTPException 400)
    | TooDeep => Raise RecursionError
    end
  else
    match on_non_json fw with
    | ReturnsNone => Return JNull
    | RaisesBadRequest => Raise (HTTPException 400)
    | RaisesUnsupportedMediaType => Raise (HTTPException 415)
    end.

End Flask.
Export Flask.

(** ** app.py *)

Module App.

(** *** Module level: configuration read at import *)

(** [os.getenv(key, default)] on [os.environ]. *)
Definition getenv (env : gmap string string) (key dflt : string) : string :=
  default dflt (env !! key).

(** The globals [VERSION] and [BUILD_SHA], bound once when the module is
    imported. *)
Record Config : Type := mkConfig {
  VERSION : string;
  BUILD_SHA : string
}.

Definition import_app (env : gmap string string) : Config :=
  {| VERSION := getenv env "APP_VERSION" "1.0.0";
     BUILD_SHA := getenv env "BUILD_SHA" "dev" |}.

(** What the interpreter adds to the grammar of [int(s)].  Before the
    text is read, every Unicode decimal digit is replaced by its ASCII
    digit and every Unicode space by a blank; text that is ASCII already
    is left as it is ([ascii_only]).  A number of more than
    [int_max_str_digits] digits is refused (4300 unless configured; 0
    means no limit, the only setting below 640). *)
Record Python : Type := mkPython {
  to_ascii : string -> list ascii;
  int_max_str_digits : nat
}.

Definition ascii_only (s : string) : bool :=
  forallb (fun c => (N_of_ascii c <? 127)%N) (list_ascii_of_string s).

(** [int(s)] for a string: surrounding white space, an optional sign,
    decimal digits with single underscores between them; [None] is
    [ValueError]. *)
Definition is_space (c : ascii) : bool :=
  let n := N_of_ascii c in (n =? 32)%N || ((9 <=? n)%N && (n <=? 13)%N).

Fixpoint lstrip (cs : list ascii) : list ascii :=
  match cs with
  | c :: cs' => if is_space c then lstrip cs' else cs
  | [] => []
  end.

Definition strip (cs : list ascii) : list ascii :=
  rev (lstrip (rev (lstrip cs))).

Fixpoint int_digits (cs : list ascii) (acc : Z) (after_digit : bool) : option Z :=
  match cs with
  | [] => if after_digit then Some acc else None
  | c :: cs' =>
      if is_digit c then int_digits cs' (10 * acc + digit_val c) true
      else if Ascii.eqb c "_" && after_digit then int_digits cs' acc false
      else None
  end.

Fixpoint count_digits (cs : list ascii) : nat :=
  match cs with
  | [] => O
  | c :: cs' => if is_digit c then S (count_digits cs') else count_digits cs'
  end.

Definition py_int (py : Python) (s : string) : option Z :=
  let cs := strip (to_ascii py s) in
  let limit := int_max_str_digits py in
  if (0 <? limit)%nat && (limit <? count_digits cs)%nat then None
  else
    match cs with
    | "-"%char :: cs => option_map Z.opp (int_digits cs 0 false)
    | "+"%char :: cs => int_digits cs 0 false
    | cs => int_digits cs 0 false
    end.

(** The [__main__] block: [port = int(os.getenv('PORT', 5000))], read
    once before [app.run] starts serving. *)
Definition main_port (py : Python) (env : gmap string string) : option Z :=
  match env !! "PORT" with
  | Some s => py_int py s
  | None => Some 5000
  end.

(** *** What a view reads at request time *)

Record World : Type := mkWorld {
  environ : gmap string string;   (* [os.environ] *)
  hostname : option string;       (* [socket.gethostname()]; [None]: it fails *)
  utcnow : datetime;              (* [datetime.utcnow()] *)
  sys_version : string            (* [os.sys.version] *)
}.

Definition gethostname (w : World) : result string :=
  match hostname w with
  | Some h => Return h
  | None => Raise OSError
  end.

(** *** Views and error handlers *)

Section Views.
Variable fw : Framework.
Variable cfg : Config.
Variable w : World.

Definition home : result Response :=
  mret (jsonify (JObj [
    ("service", JStr "CI/CD Demo Application");
    ("version", JStr (VERSION cfg));
    ("build_sha", JStr (BUILD_SHA cfg));
    ("status", JStr "running");
    ("timestamp", JStr (isoformat (utcnow w)))])).

Definition health : result Response :=
  h ← gethostname w;
  mret (with_status (jsonify (JObj [
    ("status", JStr "healthy");
    ("version", JStr (VERSION cfg));
    ("hostname", JStr h);
    ("timestamp", JStr (isoformat (utcnow w)))])) 200).

Definition echo (req : Request) : result Response :=
  data ← get_json fw req;
  mret (jsonify (JObj [
    ("received", data);
    ("version", JStr (VERSION cfg));
    ("timestamp", JStr (isoformat (utcnow w)))])).

Definition info : result Response :=
  h ← gethostname w;
  mret (jsonify (JObj [
    ("application", JObj [
       ("name", JStr "CI/CD Demo Application");
       ("version", JStr (VERSION cfg));
       ("build_sha", JStr (BUILD_SHA cfg));
       ("environment", JStr (getenv (environ w) "ENVIRONMENT" "development"))]);
    ("system", JObj [
       ("hostname", JStr h);
       ("python_version", JStr (sys_version w))]);
    ("timestamp", JStr (isoformat (utcnow w)))])).

Definition not_found (error : exn) : Response :=
  with_status (jsonify (JObj [
    ("error", JStr "Not Found");
    ("message", JStr "The requested resource does not exist");
    ("version", JStr (VERSION cfg))])) 404.

Definition internal_error (error : exn) : Response :=
  with_status (jsonify (JObj [
    ("error", JStr "Internal Server Error");
    ("message", JStr "An unexpected error occurred");
    ("version", JStr (VERSION cfg))])) 500.

End Views.

(** *** The URL map built by [Flask(__name__)] and the [@app.route] lines *)

Inductive Endpoint : Type := Static | Home | Health | Echo | Info.

Inductive pattern : Type :=
| Literal (p : string)      (* a rule without converters *)
| PathUnder (pfx : string). (* [pfx + "<path:filename>"] *)

Record Rule : Type := mkRule {
  rule : pattern;
  methods : list string;
  endpoint : Endpoint
}.

Definition mem (s : string) (l : list string) : bool :=
  existsb (String.eqb s) l.

(** [add_url_rule]: the methods default to GET; Flask adds OPTIONS (it
    answers it itself) and werkzeug adds HEAD wherever GET is allowed. *)
Definition add_url_rule (p : pattern) (ms : option (list string))
    (ep : Endpoint) : Rule :=
  let ms := default ["GET"] ms in
  let ms := if mem "OPTIONS" ms then ms else (ms ++ ["OPTIONS"])%list in
  let ms := if mem "GET" ms && negb (mem "HEAD" ms) then (ms ++ ["HEAD"])%list else ms in
  mkRule p ms ep.

Definition url_map : list Rule :=
  [ add_url_rule (PathUnder "/static/") None Static;
    add_url_rule (Literal "/") None Home;
    add_url_rule (Literal "/health") None Health;
    add_url_rule (Literal "/api/echo") (Some ["POST"]) Echo;
    add_url_rule (Literal "/api/info") None Info ].

(** A [path] converter takes one or more characters, the first of which
    is not a slash. *)
Definition matches (p : pattern) (s : string) : bool :=
  match p with
  | Literal l => String.eqb l s
  | PathUnder pfx =>
      String.prefix pfx s &&
      match String.get (String.length pfx) s with
      | Some c => negb (Ascii.eqb c "/")
      | None => false
      end
  end.

(** The first rule for the path that allows the method, and whether some
    rule for the path refused the method. *)
Fixpoint match_path (rules : list Rule) (p m : string) : option Endpoint * bool :=
  match rules with
  | [] => (None, false)
  | r :: rest =>
      if matches (rule r) p then
        if mem m (methods r) then (Some (endpoint r), false)
        else (fst (match_path rest p m), true)
      else match_path rest p m
  end.

(** Every run of slashes becomes one slash: a slash that another slash
    follows is dropped. *)
Fixpoint merge_chars (cs : list ascii) : list ascii :=
  match cs with
  | [] => []
  | c :: rest =>
      match c, rest with
      | "/"%char, "/"%char :: _ => merge_chars rest
      | _, _ => c :: merge_chars rest
      end
  end.

Definition merged (p : string) : string :=
  string_of_list_ascii (merge_chars (list_ascii_of_string p)).

Inductive match_result : Type :=
| Matched (ep : Endpoint)
| RequestRedirect (target : string)
| MethodNotAllowed
| NotFound.

(** [MapAdapter.match] *)
Definition url_match (fw : Framework) (p m : string) : match_result :=
  match match_path url_map p m with
  | (Some ep, _) => Matched ep
  | (None, refused) =>
      if merge_slashes fw then
        match match_path url_map (merged p) m with
        | (Some _, _) => RequestRedirect (merged p)
        | (None, refused') =>
            if refused || refused' then MethodNotAllowed else NotFound
        end
      else if refused then MethodNotAllowed else NotFound
  end.

(** *** Dispatch *)

Section Dispatch.
Variable fw : Framework.
Variable cfg : Config.
Variable w : World.

(** The views by endpoint.  The repository has no [static/] directory:
    [send_static_file] finds nothing and raises [NotFound]. *)
Definition view_functions (ep : Endpoint) (req : Request) : result Response :=
  match ep with
  | Static => Raise (HTTPException 404)
  | Home => home cfg w
  | Health => health cfg w
  | Echo => echo fw cfg w req
  | Info => info cfg w
  end.

(** [@app.errorhandler(404)] and [@app.errorhandler(500)] are the only
    registered handlers; any other [HTTPException] is its own response. *)
Definition handle_http_exception (code : Z) : Response :=
  if code =? 404 then not_found cfg (HTTPException code)
  else if code =? 500 then internal_error cfg (HTTPException code)
  else default_error_response code.

(** With [debug=False] an exception that is not an [HTTPException] is
    not propagated: it reaches the 500 handler. *)
Definition handle_user_exception (e : exn) : Response :=
  match e with
  | HTTPException code => handle_http_exception code
  | OSError | RecursionError => internal_error cfg (HTTPException 500)
  end.

(** [Flask.full_dispatch_request] *)
Definition full_dispatch_request (req : Request) : Response :=
  match url_match fw (path req) (method req) with
  | Matched ep =>
      if String.eqb (method req) "OPTIONS" then make_default_options_response
      else
        match view_functions ep req with
        | Return r => r
        | Raise e => handle_user_exception e
        end
  | RequestRedirect target => redirect_response target (query_string req)
  | MethodNotAllowed => handle_http_exception 405
  | NotFound => handle_http_exception 404
  end.

(** [Flask.wsgi_app]: the response as it leaves the server.  werkzeug
    sends the status and the headers of a HEAD request and leaves the
    body out. *)
Definition wsgi_app (req : Request) : Response :=
  let r := full_dispatch_request req in
  if String.eqb (method req) "HEAD"
  then mkResponse (status r) (content_type r) (location r) NoBody
  else r.

End Dispatch.

End App.
Export App.

(** ** Reading a response *)

Module Observe.

(** A top-level field of the response document. *)
Definition field (k : string) (r : Response) : option json :=
  match body r with
  | JsonBody d => get k d
  | _ => None
  end.

Definition field_path (ks : list string) (r : Response) : option json :=
  match body r with
  | JsonBody d => get_path ks d
  | _ => None
  end.

Definition has_field (k : string) (r : Response) : bool :=
  match field k r with Some _ => true | None => false end.

Definition field_names (r : Response) : list string :=
  match body r with
  | JsonBody d => keys d
  | _ => []
  end.

(** The version a document reports: its [version] field, or, for the
    [info] document, which has none at top level, the [version] of its
    [application] object. *)
Definition reported_version (r : Response) : option json :=
  match field "version" r with
  | Some v => Some v
  | None => field_path ["application"; "version"] r
  end.

(** A view returned: status 200 with a JSON document. *)
Definition successful (r : Response) : bool :=
  (status r =? 200) && is_json_response r.

(** No rule of the URL map is for this path, nor (where werkzeug merges
    slashes) for its merged form. *)
Definition no_route (fw : Framework) (p : string) : bool :=
  negb (existsb (fun r => matches (rule r) p) url_map) &&
  (negb (merge_slashes fw) ||
   negb (existsb (fun r => matches (rule r) (merged p)) url_map)).

(** The same process state seen with another [os.environ]. *)
Definition with_environ (w : World) (env : gmap string string) : World :=
  mkWorld env (hostname w) (utcnow w) (sys_version w).

End Observe.
Export Observe.

(** ** Sample data *)

Module Sample.

(** A reader for the JSON the examples post, in the order [json.loads]
    scans: literals (with the [NaN] and [Infinity] it tolerates),
    integers, strings without escapes, arrays and objects, nested [depth]
    deep at most.  A text it cannot read is
    [Invalid]; a container opened below [depth] is [TooDeep] at once,
    whatever follows it. *)
Inductive scanned : Type :=
| Scanned (v : json) (rest : list ascii)
| Bad
| Deep.

Definition is_ws (c : ascii) : bool :=
  let n := N_of_ascii c in
  (n =? 32)%N || (n =? 9)%N || (n =? 10)%N || (n =? 13)%N.

Fixpoint skip_ws (cs : list ascii) : list ascii :=
  match cs with
  | c :: cs' => if is_ws c then skip_ws cs' else cs
  | [] => []
  end.

Fixpoint take_string (cs acc : list ascii) : option (string * list ascii) :=
  match cs with
  | [] => None
  | c :: rest =>
      if Ascii.eqb c "034" then Some (string_of_list_ascii (rev acc), rest)
      else if Ascii.eqb c "092" then None
      else if (N_of_ascii c <? 32)%N then None
      else take_string rest (c :: acc)
  end.

Fixpoint take_number (cs : list ascii) (acc : Z) : Z * list ascii :=
  match cs with
  | c :: rest => if is_digit c then take_number rest (10 * acc + digit_val c)
                 else (acc, cs)
  | [] => (acc, [])
  end.

(** The bit patterns of [float('nan')] and [float('inf')], which
    [json.loads] reads from the words [NaN] and [Infinity]. *)
Definition nan : Z := 9221120237041090560.
Definition infinity : Z := 9218868437227405312.

(** An integer: a lone [0], or digits that do not start with [0]. *)
Definition take_int (c : ascii) (rest : list ascii) : option (Z * list ascii) :=
  if Ascii.eqb c "0" then Some (0, rest)
  else if is_digit c then Some (take_number (c :: rest) 0)
  else None.

Fixpoint value (fuel depth : nat) (cs : list ascii) : scanned :=
  match fuel with
  | O => Bad
  | S fuel' =>
      match skip_ws cs with
      | "n" :: "u" :: "l" :: "l" :: rest => Scanned JNull rest
      | "t" :: "r" :: "u" :: "e" :: rest => Scanned (JBool true) rest
      | "f" :: "a" :: "l" :: "s" :: "e" :: rest => Scanned (JBool false) rest
      | "N" :: "a" :: "N" :: rest => Scanned (JFloat nan) rest
      | "I" :: "n" :: "f" :: "i" :: "n" :: "i" :: "t" :: "y" :: rest =>
          Scanned (JFloat infinity) rest
      | "-" :: "I" :: "n" :: "f" :: "i" :: "n" :: "i" :: "t" :: "y" :: rest =>
          Scanned (JFloat (2 ^ 63 + infinity)) rest
      | "034" :: rest =>
          match take_string rest [] with
          | Some (s, rest') => Scanned (JStr s) rest'
          | None => Bad
          end
      | "[" :: rest =>
          match depth with
          | O => Deep
          | S depth' =>
              match skip_ws rest with
              | "]" :: rest' => Scanned (JArr []) rest'
              | _ => items fuel' depth' rest []
              end
          end
      | "{" :: rest =>
          match depth with
          | O => Deep
          | S depth' =>
              match skip_ws rest with
              | "}" :: rest' => Scanned (JObj []) rest'
              | _ => members fuel' depth' rest []
              end
          end
      | "-" :: c :: rest =>
          match take_int c rest with
          | Some (n, rest') => Scanned (JInt (- n)) rest'
          | None => Bad
          end
      | c :: rest =>
          match take_int c rest with
          | Some (n, rest') => Scanned (JInt n) rest'
          | None => Bad
          end
      | [] => Bad
      end
  end%char
with items (fuel depth : nat) (cs : list ascii) (acc : list json) : scanned :=
  match fuel with
  | O => Bad
  | S fuel' =>
      match value fuel' depth cs with
      | Scanned v rest =>
          match skip_ws rest with
          | "," :: rest' => items fuel' depth rest' (v :: acc)
          | "]" :: rest' => Scanned (JArr (rev (v :: acc))) rest'
          | _ => Bad
          end
      | Bad => Bad
      | Deep => Deep
      end
  end%char
with members (fuel depth : nat) (cs : list ascii) (acc : list (string * json))
    : scanned :=
  match fuel with
  | O => Bad
  | S fuel' =>
      match skip_ws cs with
      | "034" :: rest =>
          match take_string rest [] with
          | Some (k, rest1) =>
              match skip_ws rest1 with
              | ":" :: rest2 =>
                  match value fuel' depth rest2 with
                  | Scanned v rest3 =>
                      match skip_ws rest3 with
                      | "," :: rest4 => members fuel' depth rest4 ((k, v) :: acc)
                      | "}" :: rest4 => Scanned (JObj (rev ((k, v) :: acc))) rest4
                      | _ => Bad
                      end
                  | Bad => Bad
                  | Deep => Deep
                  end
              | _ => Bad
              end
          | None => Bad
          end
      | _ => Bad
      end
  end%char.

(** [json.loads] under a recursion limit of [depth] containers. *)
Definition json_loads (depth : nat) (s : string) : parsed :=
  let cs := list_ascii_of_string s in
  match value (S (length cs)) depth cs with
  | Scanned v rest => match skip_ws rest with [] => Value v | _ => Invalid end
  | Bad => Invalid
  | Deep => TooDeep
  end.

(** The recursion limit of a fresh interpreter. *)
Definition recursion_limit : nat := 1000.

(** A nesting no interpreter takes. *)
Definition very_deep : nat := Z.to_nat 100000.

(** [n] arrays, one inside the other: well-formed JSON of depth [n]. *)
Definition nested_text (n : nat) : string :=
  string_of_list_ascii (repeat "["%char n ++ repeat "]"%char n).

Definition q : string := String "034" "".

(** The body of the repository's test [test_echo_returns_posted_data]. *)
Definition hello_text : string :=
  "{" +:+ q +:+ "message" +:+ q +:+ ": " +:+ q +:+ "hello" +:+ q +:+ ", " +:+
  q +:+ "number" +:+ q +:+ ": 42}".

Definition hello : json :=
  JObj [("message", JStr "hello"); ("number", JInt 42)].

(** A current installation (werkzeug 3) and an old one (werkzeug 0.x). *)
Definition flask3 : Framework :=
  mkFramework (json_loads recursion_limit) RaisesUnsupportedMediaType true.
Definition flask1 : Framework :=
  mkFramework (json_loads recursion_limit) ReturnsNone false.

(** An interpreter with the default limit on the digits of an [int], on
    text that is ASCII. *)
Definition cpython : Python := mkPython list_ascii_of_string 4300.

Definition noon : datetime := mkDateTime 2024 5 17 12 0 0 0.
Definition later : datetime := mkDateTime 2024 5 17 12 0 0 250000.

Definition world (env : gmap string string) (now : datetime) : World :=
  mkWorld env (Some "web-1") now "3.11.9 (main)".

(** Two settings of [os.environ]. *)
Definition production : gmap string string := {[ "ENVIRONMENT" := "production" ]}.
Definition released : gmap string string := {[ "APP_VERSION" := "2.3.1" ]}.

(** A host whose name cannot be resolved. *)
Definition nameless (now : datetime) : World :=
  mkWorld ∅ None now "3.11.9 (main)".

Definition get_ (p : string) : Request := mkRequest "GET" p "" [] "" "".

Definition post_json (p body : string) : Request :=
  mkRequest "POST" p "" [("Content-Type", "application/json")]
            "application/json" body.

End Sample.

(** ** The main block and the builtins it leans on *)

Module Startup.

(** [str(z)] for an [int]. *)
Definition py_str (z : Z) : string :=
  string_of_list_ascii
    (if z <? 0 then "-"%char :: decimal (- z) else decimal z).

(** The interpreter leaves ASCII text as it is before [int] reads it. *)
Definition reads_ascii (py : Python) : Prop :=
  forall s, ascii_only s = true -> to_ascii py s = list_ascii_of_string s.

End Startup.
Export Startup.

(** ** tests/test_app.py *)

Module TestSuite.

(** *** What the assertions compute *)

(** A binary64 by its bit pattern: exponent field, fraction field, sign. *)
Definition float_exp (bits : Z) : Z := (bits / 2 ^ 52) mod 2048.
Definition float_frac (bits : Z) : Z := bits mod 2 ^ 52.
Definition float_neg (bits : Z) : bool := (bits / 2 ^ 63) mod 2 =? 1.

Definition float_is_nan (bits : Z) : bool :=
  (float_exp bits =? 2047) && negb (float_frac bits =? 0).

Definition float_is_zero (bits : Z) : bool :=
  (float_exp bits =? 0) && (float_frac bits =? 0).

(** [x == y] on two floats: no NaN equals anything, the two zeros are
    equal. *)
Definition float_eq (a b : Z) : bool :=
  negb (float_is_nan a) && negb (float_is_nan b) &&
  ((a mod 2 ^ 64 =? b mod 2 ^ 64) || (float_is_zero a && float_is_zero b)).

(** [n == x] for an [int] and a float: the exact values are compared. *)
Definition int_float_eq (n bits : Z) : bool :=
  let e := float_exp bits in
  if e =? 2047 then false
  else
    let m := if e =? 0 then float_frac bits else 2 ^ 52 + float_frac bits in
    let m := if float_neg bits then - m else m in
    let ex := (if e =? 0 then 1 else e) - 1075 in
    if 0 <=? ex then n =? m * 2 ^ ex else m =? n * 2 ^ (- ex).

Definition int_of_bool (b : bool) : Z := if b then 1 else 0.

(** [a == b] on what [json.loads] returns: [bool] is an [int], numbers
    compare by value, lists element by element, dicts key by key whatever
    their order. *)
Fixpoint py_eq (a b : json) : bool :=
  match a, b with
  | JNull, JNull => true
  | JBool x, JBool y => Bool.eqb x y
  | JBool x, JInt n | JInt n, JBool x => int_of_bool x =? n
  | JBool x, JFloat f | JFloat f, JBool x => int_float_eq (int_of_bool x) f
  | JInt n, JInt m => n =? m
  | JInt n, JFloat f | JFloat f, JInt n => int_float_eq n f
  | JFloat f, JFloat g => float_eq f g
  | JStr s, JStr t => String.eqb s t
  | JArr xs, JArr ys =>
      (fix all2 (xs ys : list json) : bool :=
         match xs, ys with
         | [], [] => true
         | x :: xs', y :: ys' => py_eq x y && all2 xs' ys'
         | _, _ => false
         end) xs ys
  | JObj kvs, JObj kvs' =>
      (length kvs =? length kvs')%nat &&
      (fix all (kvs : list (string * json)) : bool :=
         match kvs with
         | [] => true
         | (k, v) :: rest =>
             match assoc k kvs' with
             | Some v' => py_eq v v'
             | None => false
             end && all rest
         end) kvs
  | _, _ => false
  end.

Fixpoint contains_sub (needle hay : string) : bool :=
  String.prefix needle hay ||
  match hay with
  | EmptyString => false
  | String _ hay' => contains_sub needle hay'
  end.

(** [key in d] for a [str] key: a key of a dict, an item of a list, a
    substring of a string; [None] is the [TypeError] of the other values. *)
Definition py_in (key : string) (d : json) : option bool :=
  match d with
  | JObj kvs => Some (existsb (String.eqb key) (map fst kvs))
  | JArr items => Some (existsb (py_eq (JStr key)) items)
  | JStr s => Some (contains_sub key s)
  | _ => None
  end.

(** *** Outcomes *)

Inductive outcome : Type :=
| Passed
| Failed     (* an [assert] did not hold *)
| Errored.   (* an exception reached pytest *)

(** [assert b], then the rest of the test. *)
Definition assert_ (b : bool) (rest : outcome) : outcome :=
  if b then rest else Failed.

(** [assert key in d] *)
Definition assert_in (key : string) (d : json) (rest : outcome) : outcome :=
  match py_in key d with
  | Some b => assert_ b rest
  | None => Errored
  end.

(** [d[key]]: a missing key is a [KeyError], a [d] that has no string keys
    a [TypeError]. *)
Definition item (d : json) (key : string) (rest : json -> outcome) : outcome :=
  match get key d with
  | Some v => rest v
  | None => Errored
  end.

(** [json.loads(response.data)]: the document [jsonify] was given when the
    body is one, a [JSONDecodeError] when it is an HTML page or empty. *)
Definition loads_data (r : Response) (rest : json -> outcome) : outcome :=
  match body r with
  | JsonBody d => rest d
  | _ => Errored
  end.

Definition responded (m : result Response) (rest : Response -> outcome) : outcome :=
  match m with
  | Return r => rest r
  | Raise _ => Errored
  end.

(** *** The [client] fixture *)

Section Client.
Variable fw : Framework.
Variable cfg : Config.
Variable w : World.
(** [json.dumps], as the tests call it. *)
Variable dumps : json -> string.

(** [app.config['TESTING'] = True]: the dispatch of the application,
    except that an exception which is not an [HTTPException] is raised
    again instead of being given to the 500 handler. *)
Definition client_open (req : Request) : result Response :=
  match url_match fw (path req) (method req) with
  | Matched ep =>
      if String.eqb (method req) "OPTIONS" then Return make_default_options_response
      else
        match view_functions fw cfg w ep req with
        | Return r => Return r
        | Raise (HTTPException code) => Return (handle_http_exception cfg code)
        | Raise e => Raise e
        end
  | RequestRedirect target => Return (redirect_response target (query_string req))
  | MethodNotAllowed => Return (handle_http_exception cfg 405)
  | NotFound => Return (handle_http_exception cfg 404)
  end.

(** [client.get(path)] *)
Definition client_get (p : string) : result Response :=
  client_open (mkRequest "GET" p "" [] "" "").

(** [client.post(path, data=data, content_type='application/json')] *)
Definition client_post_json (p data : string) : result Response :=
  client_open (mkRequest "POST" p "" [("Content-Type", "application/json")]
                         "application/json" data).

(** *** class TestHomeEndpoint *)

Definition test_home_returns_200 : outcome :=
  responded (client_get "/") (fun response =>
  assert_ (status response =? 200) Passed).

Definition test_home_returns_json : outcome :=
  responded (client_get "/") (fun response =>
  assert_ (String.eqb (content_type response) "application/json") Passed).

Definition test_home_contains_version : outcome :=
  responded (client_get "/") (fun response =>
  loads_data response (fun data =>
  assert_in "version" data (
  item data "version" (fun v =>
  assert_ (py_eq v (JStr (VERSION cfg))) Passed)))).

Definition test_home_contains_required_fields : outcome :=
  responded (client_get "/") (fun response =>
  loads_data response (fun data =>
  fold_right (fun field rest => assert_in field data rest) Passed
    ["service"; "version"; "build_sha"; "status"; "timestamp"])).

(** *** class TestHealthEndpoint *)

Definition test_health_returns_200 : outcome :=
  responded (client_get "/health") (fun response =>
  assert_ (status response =? 200) Passed).

Definition test_health_returns_healthy_status : outcome :=
  responded (client_get "/health") (fun response =>
  loads_data response (fun data =>
  item data "status" (fun v =>
  assert_ (py_eq v (JStr "healthy")) Passed))).

Definition test_health_contains_hostname : outcome :=
  responded (client_get "/health") (fun response =>
  loads_data response (fun data =>
  assert_in "hostname" data (
  item data "hostname" (fun v =>
  assert_ (match v with JNull => false | _ => true end) Passed)))).

(** *** class TestEchoEndpoint *)

Definition test_echo_returns_200 : outcome :=
  let test_data := JObj [("message", JStr "test")] in
  responded (client_post_json "/api/echo" (dumps test_data)) (fun response =>
  assert_ (status response =? 200) Passed).

Definition test_echo_returns_posted_data : outcome :=
  let test_data := JObj [("message", JStr "hello"); ("number", JInt 42)] in
  responded (client_post_json "/api/echo" (dumps test_data)) (fun response =>
  loads_data response (fun data =>
  item data "received" (fun v =>
  assert_ (py_eq v test_data) Passed))).

Definition test_echo_includes_version : outcome :=
  let test_data := JObj [("test", JStr "data")] in
  responded (client_post_json "/api/echo" (dumps test_data)) (fun response =>
  loads_data response (fun data =>
  assert_in "version" data Passed)).

(** *** class TestInfoEndpoint *)

Definition test_info_returns_200 : outcome :=
  responded (client_get "/api/info") (fun response =>
  assert_ (status response =? 200) Passed).

Definition test_info_contains_application_details : outcome :=
  responded (client_get "/api/info") (fun response =>
  loads_data response (fun data =>
  assert_in "application" data (
  item data "application" (fun a =>
  assert_in "name" a (
  item data "application" (fun a' =>
  assert_in "version" a' Passed)))))).

Definition test_info_contains_system_details : outcome :=
  responded (client_get "/api/info") (fun response =>
  loads_data response (fun data =>
  assert_in "system" data (
  item data "system" (fun sys =>
  assert_in "hostname" sys Passed)))).

(** *** class TestErrorHandlers *)

Definition test_404_handler : outcome :=
  responded (client_get "/nonexistent") (fun response =>
  assert_ (status response =? 404) (
  loads_data response (fun data =>
  assert_in "error" data (
  item data "error" (fun v =>
  assert_ (py_eq v (JStr "Not Found")) Passed))))).

Definition test_404_includes_version : outcome :=
  responded (client_get "/nonexistent") (fun response =>
  loads_data response (fun data =>
  assert_in "version" data Passed)).

End Client.

End TestSuite.
Export TestSuite.

(** ** The body on the wire *)

Module Wire.

(** A value JSON can write: no float in it is a NaN or an infinity.
    [jsonify] writes those as the words [NaN] and [Infinity], which are
    not JSON. *)
Fixpoint strict (v : json) : bool :=
  match v with
  | JFloat bits => negb (float_exp bits =? 2047)
  | JArr items =>
      (fix all (items : list json) : bool :=
         match items with
         | [] => true
         | x :: rest => strict x && all rest
         end) items
  | JObj fields =>
      (fix all (fields : list (string * json)) : bool :=
         match fields with
         | [] => true
         | (_, x) :: rest => strict x && all rest
         end) fields
  | _ => true
  end.

(** The body is the text of a JSON document. *)
Definition valid_json_body (r : Response) : bool :=
  match body r with
  | JsonBody d => strict d
  | _ => false
  end.

(** The request makes [echo] write back a NaN or an infinity. *)
Definition echoes_non_finite (fw : Framework) (req : Request) : bool :=
  String.eqb (path req) "/api/echo" && String.eqb (method req) "POST" &&
  match get_json fw req with
  | Return v => negb (strict v)
  | Raise _ => false
  end.

End Wire.
Export Wire.

(** ** Sample data for the tests *)

Module SampleSuite.
Import Sample.

(** A writer for the values the tests post, with the separators of
    [json.dumps]: literals, integers, strings without escapes, lists and
    dicts.  The tests post no float; one is written as [NaN]. *)
Fixpoint json_dumps (v : json) : string :=
  match v with
  | JNull => "null"
  | JBool true => "true"
  | JBool false => "false"
  | JInt n => py_str n
  | JFloat _ => "NaN"
  | JStr s => q +:+ s +:+ q
  | JArr items =>
      "[" +:+
      (fix join (items : list json) : string :=
         match items with
         | [] => ""
         | [x] => json_dumps x
         | x :: rest => json_dumps x +:+ ", " +:+ join rest
         end) items +:+ "]"
  | JObj fields =>
      "{" +:+
      (fix join (fields : list (string * json)) : string :=
         match fields with
         | [] => ""
         | [(k, x)] => q +:+ k +:+ q +:+ ": " +:+ json_dumps x
         | (k, x) :: rest =>
             q +:+ k +:+ q +:+ ": " +:+ json_dumps x +:+ ", " +:+ join rest
         end) fields +:+ "}"
  end.

End SampleSuite.

(** * Properties *)

Local Open Scope list_scope.

(** ** Decimal formatting *)

Module DateTimeFacts.

Lemma fixed_length w n : length (fixed w n) = w.
Proof.
  revert n; induction w as [|w IH]; intros n; cbn [fixed]; [reflexivity|].
  rewrite length_app, IH. cbn. lia.
Qed.

Lemma fixed_zero w : fixed w 0 = repeat "0"%char w.
Proof.
  induction w as [|w IH]; [reflexivity|].
  cbn [fixed]. change (0 / 10) with 0. rewrite IH.
  change [digit (0 mod 10)] with (repeat "0"%char 1).
  rewrite <- repeat_app. f_equal. lia.
Qed.

Lemma decimal_digits_fixed w : forall fuel n acc,
  0 <= n < 10 ^ Z.of_nat (S w) ->
  (Z.to_nat n < fuel)%nat ->
  exists z, repeat "0"%char z ++ decimal_digits fuel n acc = fixed (S w) n ++ acc.
Proof.
  induction w as [|w IH]; intros fuel n acc Hn Hfuel.
  - destruct fuel as [|fuel]; [lia|].
    exists O. cbn [decimal_digits fixed repeat app].
    destruct (Z.ltb_spec n 10) as [_|Hge]; [reflexivity|].
    change (10 ^ Z.of_nat 1) with 10 in Hn. lia.
  - destruct fuel as [|fuel]; [lia|].
    cbn [decimal_digits].
    destruct (Z.ltb_spec n 10) as [Hlt|Hge].
    + exists (S w). cbn [fixed].
      replace (n / 10) with 0 by (symmetry; apply Z.div_small; lia).
      change (fixed w (0 / 10) ++ [digit (0 mod 10)]) with (fixed (S w) 0).
      rewrite fixed_zero, <- !app_assoc. reflexivity.
    + assert (Hdiv : 0 <= n / 10 < 10 ^ Z.of_nat (S w)).
      { split; [apply Z.div_pos; lia|].
        apply Z.div_lt_upper_bound; [lia|].
        replace (Z.of_nat (S (S w))) with (Z.succ (Z.of_nat (S w))) in Hn by lia.
        rewrite Z.pow_succ_r in Hn by lia. lia. }
      assert (Hlt : n / 10 < n) by (apply Z.div_lt; lia).
      destruct (IH fuel (n / 10) (digit (n mod 10) :: acc) Hdiv ltac:(lia))
        as [z Hz].
      exists z. rewrite Hz.
      change (fixed (S (S w)) n) with (fixed (S w) (n / 10) ++ [digit (n mod 10)]).
      rewrite <- app_assoc. reflexivity.
Qed.

(** Within its width, ["%0wd"] prints exactly [w] digits. *)
Lemma fmt_fixed w n :
  (0 < w)%nat -> 0 <= n < 10 ^ Z.of_nat w -> fmt w n = fixed w n.
Proof.
  intros Hw Hn. destruct w as [|w]; [lia|].
  destruct (decimal_digits_fixed w (S (Z.to_nat n)) n [] Hn ltac:(lia)) as [z Hz].
  unfold fmt. fold (decimal n) in Hz. rewrite app_nil_r in Hz.
  assert (Hlen : (z + length (decimal n) = S w)%nat).
  { rewrite <- (fixed_length (S w) n), <- Hz, length_app, repeat_length. reflexivity. }
  replace (S w - length (decimal n))%nat with z by lia. exact Hz.
Qed.

Lemma digit_code n : N_of_ascii (digit (n mod 10)) = Z.to_N (48 + n mod 10).
Proof.
  pose proof (Z.mod_pos_bound n 10 ltac:(lia)) as Hr.
  set (r := n mod 10) in *.
  assert (Hcases : r = 0 \/ r = 1 \/ r = 2 \/ r = 3 \/ r = 4 \/
                   r = 5 \/ r = 6 \/ r = 7 \/ r = 8 \/ r = 9) by lia.
  repeat (destruct Hcases as [-> | Hcases]; [reflexivity|]).
  subst r. rewrite Hcases. reflexivity.
Qed.

Lemma is_digit_digit n : is_digit (digit (n mod 10)) = true.
Proof.
  unfold is_digit. rewrite digit_code.
  pose proof (Z.mod_pos_bound n 10 ltac:(lia)).
  apply andb_true_intro; split; apply N.leb_le; lia.
Qed.

Lemma digit_val_digit n : digit_val (digit (n mod 10)) = n mod 10.
Proof.
  unfold digit_val. rewrite digit_code.
  pose proof (Z.mod_pos_bound n 10 ltac:(lia)). lia.
Qed.

Lemma digit_compare a b :
  (N_of_ascii (digit (a mod 10)) ?= N_of_ascii (digit (b mod 10)))%N
  = (a mod 10 ?= b mod 10).
Proof.
  rewrite !digit_code.
  pose proof (Z.mod_pos_bound a 10 ltac:(lia)).
  pose proof (Z.mod_pos_bound b 10 ltac:(lia)).
  rewrite Z2N.inj_compare by lia. apply Z.add_compare_mono_l.
Qed.

Lemma pow10_succ w : 10 ^ Z.of_nat (S w) = 10 * 10 ^ Z.of_nat w.
Proof. rewrite Nat2Z.inj_succ, Z.pow_succ_r by lia. reflexivity. Qed.

Lemma div10_bound w n :
  0 <= n < 10 ^ Z.of_nat (S w) -> 0 <= n / 10 < 10 ^ Z.of_nat w.
Proof.
  rewrite pow10_succ. intros Hn. split; [apply Z.div_pos; lia|].
  apply Z.div_lt_upper_bound; lia.
Qed.

(** Two numbers of [w] digits compare as their digit strings do. *)
Lemma chars_cmp_fixed w : forall a b s t,
  0 <= a < 10 ^ Z.of_nat w -> 0 <= b < 10 ^ Z.of_nat w ->
  chars_cmp (fixed w a ++ s) (fixed w b ++ t)
  = then_cmp (a ?= b) (chars_cmp s t).
Proof.
  induction w as [|w IH]; intros a b s t Ha Hb.
  - change (10 ^ Z.of_nat 0) with 1 in *.
    replace a with 0 by lia. replace b with 0 by lia. reflexivity.
  - cbn [fixed]. rewrite <- !app_assoc. cbn [app].
    rewrite IH by (apply div10_bound; assumption).
    cbn [chars_cmp]. rewrite digit_compare.
    pose proof (Z.div_mod a 10 ltac:(lia)) as Ea.
    pose proof (Z.div_mod b 10 ltac:(lia)) as Eb.
    pose proof (Z.mod_pos_bound a 10 ltac:(lia)) as Ra.
    pose proof (Z.mod_pos_bound b 10 ltac:(lia)) as Rb.
    set (qa := a / 10) in *. set (ra := a mod 10) in *.
    set (qb := b / 10) in *. set (rb := b mod 10) in *.
    destruct (Z.compare_spec qa qb), (Z.compare_spec ra rb),
             (Z.compare_spec a b); cbn [then_cmp]; try reflexivity; lia.
Qed.

Lemma number_of_fixed w : forall n rest acc,
  0 <= n < 10 ^ Z.of_nat w ->
  number_of (fixed w n ++ rest) acc = number_of rest (acc * 10 ^ Z.of_nat w + n).
Proof.
  induction w as [|w IH]; intros n rest acc Hn.
  - change (10 ^ Z.of_nat 0) with 1 in *. cbn [fixed app]. f_equal. lia.
  - cbn [fixed]. rewrite <- app_assoc. cbn [app].
    rewrite IH by (apply div10_bound; assumption).
    cbn [number_of]. rewrite is_digit_digit, digit_val_digit. f_equal.
    rewrite pow10_succ. pose proof (Z.div_mod n 10 ltac:(lia)). lia.
Qed.

End DateTimeFacts.

(** ** [isoformat] *)

Module IsoFacts.
Import DateTimeFacts.

Lemma days_in_month_le y m : days_in_month y m <= 31.
Proof.
  unfold days_in_month.
  destruct (m =? 2); [destruct (is_leap y); lia|].
  destruct ((m =? 4) || (m =? 6) || (m =? 9) || (m =? 11)); lia.
Qed.

Lemma valid_validb d : valid d -> validb d = true.
Proof.
  unfold valid, validb. intros H.
  repeat (apply andb_true_intro; split);
    first [apply Z.leb_le | apply Z.ltb_lt]; lia.
Qed.

Lemma validb_valid d : validb d = true -> valid d.
Proof.
  unfold valid, validb. intros H.
  repeat (apply andb_prop in H; destruct H as [H ?]).
  repeat match goal with
         | H : (_ <=? _) = true |- _ => apply Z.leb_le in H
         | H : (_ <? _) = true |- _ => apply Z.ltb_lt in H
         end.
  lia.
Qed.

Lemma iso_chars_fixed d : valid d -> iso_chars d = iso_fixed d.
Proof.
  intros (Hy & Hm & Hd & Hh & Hn & Hs & Hu).
  pose proof (days_in_month_le (year d) (month d)).
  unfold iso_chars, iso_fixed.
  rewrite (fmt_fixed 4 (year d)) by (try lia; change (10 ^ Z.of_nat 4) with 10000; lia).
  rewrite (fmt_fixed 2 (month d)) by (try lia; change (10 ^ Z.of_nat 2) with 100; lia).
  rewrite (fmt_fixed 2 (day d)) by (try lia; change (10 ^ Z.of_nat 2) with 100; lia).
  rewrite (fmt_fixed 2 (hour d)) by (try lia; change (10 ^ Z.of_nat 2) with 100; lia).
  rewrite (fmt_fixed 2 (minute d)) by (try lia; change (10 ^ Z.of_nat 2) with 100; lia).
  rewrite (fmt_fixed 2 (second d)) by (try lia; change (10 ^ Z.of_nat 2) with 100; lia).
  rewrite (fmt_fixed 6 (microsecond d))
    by (try lia; change (10 ^ Z.of_nat 6) with 1000000; lia).
  reflexivity.
Qed.

Lemma chars_cmp_sep c s t : chars_cmp (c :: s) (c :: t) = chars_cmp s t.
Proof. cbn [chars_cmp]. rewrite N.compare_refl. reflexivity. Qed.

(** Timestamps compare as text exactly as the instants they print. *)
Lemma iso_chars_cmp a b :
  valid a -> valid b -> chars_cmp (iso_chars a) (iso_chars b) = cmp a b.
Proof.
  intros Va Vb. rewrite !iso_chars_fixed by assumption.
  destruct Va as (Hy & Hm & Hd & Hh & Hn & Hs & Hu).
  destruct Vb as (Hy' & Hm' & Hd' & Hh' & Hn' & Hs' & Hu').
  pose proof (days_in_month_le (year a) (month a)).
  pose proof (days_in_month_le (year b) (month b)).
  unfold iso_fixed, cmp.
  rewrite (chars_cmp_fixed 4) by (change (10 ^ Z.of_nat 4) with 10000; lia).
  rewrite chars_cmp_sep.
  do 4 (rewrite (chars_cmp_fixed 2) by (change (10 ^ Z.of_nat 2) with 100; lia);
        rewrite chars_cmp_sep).
  rewrite (chars_cmp_fixed 2) by (change (10 ^ Z.of_nat 2) with 100; lia).
  do 6 f_equal.
  destruct (Z.eqb_spec (microsecond a) 0) as [Ea|Na],
           (Z.eqb_spec (microsecond b) 0) as [Eb|Nb].
  - rewrite Ea, Eb. reflexivity.
  - rewrite Ea. cbn [chars_cmp]. symmetry. apply Z.compare_lt_iff. lia.
  - rewrite Eb. cbn [chars_cmp]. symmetry. apply Z.compare_gt_iff. lia.
  - rewrite chars_cmp_sep.
    rewrite <- (app_nil_r (fixed 6 (microsecond a))),
            <- (app_nil_r (fixed 6 (microsecond b))).
    rewrite (chars_cmp_fixed 6) by (change (10 ^ Z.of_nat 6) with 1000000; lia).
    cbn [chars_cmp]. destruct (microsecond a ?= microsecond b); reflexivity.
Qed.

Lemma isoformat_cmp a b :
  valid a -> valid b -> str_cmp (isoformat a) (isoformat b) = cmp a b.
Proof.
  intros Va Vb. unfold str_cmp, isoformat.
  rewrite !list_ascii_of_string_of_list_ascii. apply iso_chars_cmp; assumption.
Qed.

End IsoFacts.

Module ParseFacts.
Import DateTimeFacts IsoFacts.

Lemma number_of_fixed_nil w n :
  0 <= n < 10 ^ Z.of_nat w -> number_of (fixed w n) 0 = Some n.
Proof.
  intros Hn. rewrite <- (app_nil_r (fixed w n)), number_of_fixed by assumption.
  reflexivity.
Qed.

Lemma fixed2 n : exists a b, fixed 2 n = [a; b].
Proof. eexists _, _. reflexivity. Qed.

Lemma fixed4 n : exists a b c d, fixed 4 n = [a; b; c; d].
Proof. eexists _, _, _, _. reflexivity. Qed.

Lemma fixed6 n : exists a b c d e f, fixed 6 n = [a; b; c; d; e; f].
Proof. eexists _, _, _, _, _, _. reflexivity. Qed.

(** Reading back what [isoformat] printed gives the same instant. *)
Lemma parse_iso_chars d : valid d -> parse_chars (iso_chars d) = Some d.
Proof.
  intros V. rewrite iso_chars_fixed by assumption.
  destruct V as (Hy & Hm & Hd & Hh & Hn & Hs & Hu).
  pose proof (days_in_month_le (year d) (month d)).
  assert (Ny := number_of_fixed_nil 4 (year d)).
  assert (Nm := number_of_fixed_nil 2 (month d)).
  assert (Nd := number_of_fixed_nil 2 (day d)).
  assert (Nh := number_of_fixed_nil 2 (hour d)).
  assert (Nn := number_of_fixed_nil 2 (minute d)).
  assert (Ns := number_of_fixed_nil 2 (second d)).
  assert (Nu := number_of_fixed_nil 6 (microsecond d)).
  change (10 ^ Z.of_nat 4) with 10000 in Ny.
  change (10 ^ Z.of_nat 2) with 100 in Nm, Nd, Nh, Nn, Ns.
  change (10 ^ Z.of_nat 6) with 1000000 in Nu.
  specialize (Ny ltac:(lia)). specialize (Nm ltac:(lia)).
  specialize (Nd ltac:(lia)). specialize (Nh ltac:(lia)).
  specialize (Nn ltac:(lia)). specialize (Ns ltac:(lia)).
  specialize (Nu ltac:(lia)).
  unfold iso_fixed.
  destruct (fixed4 (year d)) as (y1 & y2 & y3 & y4 & Ey).
  destruct (fixed2 (month d)) as (m1 & m2 & Em).
  destruct (fixed2 (day d)) as (d1 & d2 & Ed).
  destruct (fixed2 (hour d)) as (h1 & h2 & Eh).
  destruct (fixed2 (minute d)) as (n1 & n2 & En).
  destruct (fixed2 (second d)) as (s1 & s2 & Es).
  destruct (fixed6 (microsecond d)) as (f1 & f2 & f3 & f4 & f5 & f6 & Ef).
  rewrite Ey in *. rewrite Em in *. rewrite Ed in *. rewrite Eh in *.
  rewrite En in *. rewrite Es in *. rewrite Ef in *.
  destruct d as [y m dd h n s u]; cbn [year month day hour minute second microsecond] in *.
  destruct (Z.eqb_spec u 0) as [->|Nz].
  - cbn [app]. unfold parse_chars. rewrite Ny, Nm, Nd, Nh, Nn, Ns. reflexivity.
  - cbn [app]. unfold parse_chars. rewrite Ny, Nm, Nd, Nh, Nn, Ns, Nu. reflexivity.
Qed.

Lemma fromisoformat_isoformat d : valid d -> fromisoformat (isoformat d) = Some d.
Proof.
  intros V. unfold fromisoformat, isoformat.
  rewrite list_ascii_of_string_of_list_ascii, parse_iso_chars by assumption.
  rewrite valid_validb by assumption. reflexivity.
Qed.

End ParseFacts.

(** ** Routing *)

Module RoutingFacts.

Lemma match_path_sound rules p m ep b :
  match_path rules p m = (Some ep, b) ->
  exists r, In r rules /\ endpoint r = ep /\
            matches (rule r) p = true /\ mem m (methods r) = true.
Proof.
  revert b; induction rules as [|r rules IH]; intros b H; cbn [match_path] in H.
  - discriminate.
  - destruct (matches (rule r) p) eqn:Hp.
    + destruct (mem m (methods r)) eqn:Hm.
      * injection H as <- _. exists r. cbn [In]. auto.
      * destruct (match_path rules p m) as [o b'] eqn:E. cbn [fst] in H.
        injection H as -> _.
        destruct (IH b' eq_refl) as (r' & Hin & ?). exists r'. cbn [In]. auto.
    + destruct (IH b H) as (r' & Hin & ?). exists r'. cbn [In]. auto.
Qed.

Lemma match_path_none rules p m :
  existsb (fun r => matches (rule r) p) rules = false ->
  match_path rules p m = (None, false).
Proof.
  induction rules as [|r rules IH]; cbn [existsb match_path]; [reflexivity|].
  intros H. apply orb_false_elim in H as [H1 H2]. rewrite H1. auto.
Qed.

Lemma url_match_no_route fw p m :
  no_route fw p = true -> url_match fw p m = NotFound.
Proof.
  unfold no_route, url_match. intros H.
  apply andb_prop in H as [H1 H2]. apply negb_true_iff in H1.
  rewrite (match_path_none _ _ _ H1).
  destruct (merge_slashes fw); [|reflexivity].
  cbn [negb orb] in H2. apply negb_true_iff in H2.
  rewrite (match_path_none _ _ _ H2). reflexivity.
Qed.

Lemma url_match_matched fw p m ep :
  url_match fw p m = Matched ep ->
  exists r, In r url_map /\ endpoint r = ep /\
            matches (rule r) p = true /\ mem m (methods r) = true.
Proof.
  unfold url_match. destruct (match_path url_map p m) as [[ep'|] b] eqn:E.
  - intros [= <-]. eapply match_path_sound; eassumption.
  - destruct (merge_slashes fw).
    + destruct (match_path url_map (merged p) m) as [[?|] b'];
        [discriminate|destruct (b || b'); discriminate].
    + destruct b; discriminate.
Qed.

Lemma match_path_home m :
  match_path url_map "/" m =
  if mem m ["GET"; "OPTIONS"; "HEAD"] then (Some Home, false) else (None, true).
Proof. reflexivity. Qed.

Lemma match_path_health m :
  match_path url_map "/health" m =
  if mem m ["GET"; "OPTIONS"; "HEAD"] then (Some Health, false) else (None, true).
Proof. reflexivity. Qed.

Lemma match_path_echo m :
  match_path url_map "/api/echo" m =
  if mem m ["POST"; "OPTIONS"] then (Some Echo, false) else (None, true).
Proof. reflexivity. Qed.

Lemma match_path_info m :
  match_path url_map "/api/info" m =
  if mem m ["GET"; "OPTIONS"; "HEAD"] then (Some Info, false) else (None, true).
Proof. reflexivity. Qed.

(** A registered path with a method its rule does not list is refused,
    whether or not slashes are merged. *)
Lemma url_match_registered fw p m ms ep :
  merged p = p ->
  match_path url_map p m = (if mem m ms then (Some ep, false) else (None, true)) ->
  url_match fw p m = if mem m ms then Matched ep else MethodNotAllowed.
Proof.
  intros Hp H. unfold url_match. rewrite Hp, H.
  destruct (mem m ms); [reflexivity|]. destruct (merge_slashes fw); reflexivity.
Qed.

Lemma url_match_home fw m :
  url_match fw "/" m =
  if mem m ["GET"; "OPTIONS"; "HEAD"] then Matched Home else MethodNotAllowed.
Proof. apply url_match_registered; reflexivity. Qed.

Lemma url_match_health fw m :
  url_match fw "/health" m =
  if mem m ["GET"; "OPTIONS"; "HEAD"] then Matched Health else MethodNotAllowed.
Proof. apply url_match_registered; reflexivity. Qed.

Lemma url_match_echo fw m :
  url_match fw "/api/echo" m =
  if mem m ["POST"; "OPTIONS"] then Matched Echo else MethodNotAllowed.
Proof. apply url_match_registered; reflexivity. Qed.

Lemma url_match_info fw m :
  url_match fw "/api/info" m =
  if mem m ["GET"; "OPTIONS"; "HEAD"] then Matched Info else MethodNotAllowed.
Proof. apply url_match_registered; reflexivity. Qed.

(** The path a matched endpoint was reached by. *)
Lemma matched_path fw p m ep :
  url_match fw p m = Matched ep ->
  match ep with
  | Static => String.prefix "/static/" p = true
  | Home => p = "/"
  | Health => p = "/health"
  | Echo => p = "/api/echo"
  | Info => p = "/api/info"
  end.
Proof.
  intros H. apply url_match_matched in H as (r & Hin & He & Hp & _).
  unfold url_map in Hin. cbn [In] in Hin.
  destruct Hin as [<-|[<-|[<-|[<-|[<-|[]]]]]]; cbn in He; subst ep;
    cbn [rule add_url_rule matches] in Hp.
  - apply andb_prop in Hp as [Hp _]. exact Hp.
  - apply String.eqb_eq in Hp. congruence.
  - apply String.eqb_eq in Hp. congruence.
  - apply String.eqb_eq in Hp. congruence.
  - apply String.eqb_eq in Hp. congruence.
Qed.

(** [echo] is reached by POST only, OPTIONS being answered before it. *)
Lemma matched_echo_method fw p m :
  url_match fw p m = Matched Echo -> m = "POST" \/ m = "OPTIONS".
Proof.
  intros H. apply url_match_matched in H as (r & Hin & He & _ & Hm).
  unfold url_map in Hin. cbn [In] in Hin.
  destruct Hin as [<-|[<-|[<-|[<-|[<-|[]]]]]]; cbn in He; try discriminate He.
  cbn in Hm. rewrite !orb_false_r in Hm.
  apply orb_prop in Hm as [Hm|Hm]; apply String.eqb_eq in Hm; auto.
Qed.

Lemma mem_cons s x l : mem s (x :: l) = String.eqb s x || mem s l.
Proof. reflexivity. Qed.

Lemma mem_nil s : mem s [] = false.
Proof. reflexivity. Qed.

End RoutingFacts.

(** ** The service *)

Module Service.
Import RoutingFacts DateTimeFacts IsoFacts ParseFacts.

(** What a POST to [/api/echo] is answered with. *)
Lemma dispatch_echo_post fw cfg w req :
  path req = "/api/echo" -> method req = "POST" ->
  full_dispatch_request fw cfg w req =
  match echo fw cfg w req with
  | Return r => r
  | Raise e => handle_user_exception cfg e
  end.
Proof.
  intros Hp Hm. unfold full_dispatch_request. rewrite Hp, Hm, url_match_echo.
  reflexivity.
Qed.

(** C1 (as amended).  A POST to [/api/echo] with Content-Type
    [application/json] is answered by what [json.loads] makes of the body.
    When it returns a value [v], the response has status 200, is a JSON
    document, its [received] field is [v] itself, and it has the fields
    [version] and [timestamp].  A body that is not JSON gets the 400 page.
    A body nested deeper than the interpreter allows, well-formed or not,
    gets the 500 document of [internal_error]. *)
Theorem echo_round_trip fw cfg w qs hs s :
  let r := wsgi_app fw cfg w
             (mkRequest "POST" "/api/echo" qs hs "application/json" s) in
  match loads fw s with
  | Value v =>
      status r = 200 /\ content_type r = "application/json" /\
      field "received" r = Some v /\
      has_field "version" r = true /\ has_field "timestamp" r = true
  | Invalid => r = default_error_response 400
  | TooDeep => r = internal_error cfg (HTTPException 500)
  end.
Proof.
  intros r. subst r. unfold wsgi_app. cbn [method String.eqb Ascii.eqb Bool.eqb].
  rewrite dispatch_echo_post by reflexivity. unfold echo, get_json.
  change (is_json _) with true. cbn [data].
  destruct (loads fw s); cbn; auto.
Qed.


Lemma mem_echo_methods m :
  m <> "POST" -> m <> "OPTIONS" -> mem m ["POST"; "OPTIONS"] = false.
Proof.
  intros H1 H2. rewrite !mem_cons, mem_nil.
  apply String.eqb_neq in H1, H2. rewrite H1, H2. reflexivity.
Qed.

(** C9 (as amended).  [/api/echo] with a method other than POST and
    OPTIONS is refused by the routing layer: status 405 and werkzeug's own
    error page, not the document of [not_found] (to HEAD the page is left
    out, as every body is).  OPTIONS is answered by Flask itself: status
    200 and no body. *)
Theorem echo_method_not_allowed fw cfg w req :
  path req = "/api/echo" ->
  (method req <> "POST" -> method req <> "OPTIONS" ->
   let r := full_dispatch_request fw cfg w req in
   (r = default_error_response 405 /\ status r = 405 /\
    is_json_response r = false /\ (forall e, r <> not_found cfg e)) /\
   status (wsgi_app fw cfg w req) = 405 /\
   is_json_response (wsgi_app fw cfg w req) = false /\
   (method req <> "HEAD" -> wsgi_app fw cfg w req = default_error_response 405)) /\
  (method req = "OPTIONS" ->
   wsgi_app fw cfg w req = make_default_options_response /\
   status (wsgi_app fw cfg w req) = 200 /\ body (wsgi_app fw cfg w req) = NoBody).
Proof.
  intros Hp. split.
  - intros H1 H2 r. subst r. unfold wsgi_app, full_dispatch_request.
    rewrite Hp, url_match_echo, mem_echo_methods by assumption.
    destruct (String.eqb_spec (method req) "HEAD") as [Hh|Hh];
      repeat split; try reflexivity; try discriminate; contradiction.
  - intros Ho. unfold wsgi_app, full_dispatch_request.
    rewrite Hp, Ho, url_match_echo. repeat split.
Qed.

(** C10.  Two requests for the same one of [/], [/health], [/api/info]
    with the same method get the same response from the same process in
    the same world, whatever their query strings, headers, content types
    and bodies. *)
Theorem request_content_ignored fw cfg w req1 req2 :
  path req1 = "/" \/ path req1 = "/health" \/ path req1 = "/api/info" ->
  path req2 = path req1 -> method req2 = method req1 ->
  full_dispatch_request fw cfg w req2 = full_dispatch_request fw cfg w req1.
Proof.
  intros Hp Hp2 Hm. unfold full_dispatch_request. rewrite Hp2, Hm.
  destruct Hp as [Hp|[Hp|Hp]]; rewrite Hp;
    [rewrite url_match_home | rewrite url_match_health | rewrite url_match_info];
    destruct (mem (method req1) ["GET"; "OPTIONS"; "HEAD"]); reflexivity.
Qed.

(** Every response is one of these. *)
Lemma response_cases fw cfg w req :
  let r := full_dispatch_request fw cfg w req in
  (r = make_default_options_response /\ method req = "OPTIONS") \/
  (status r = 200 /\ is_json_response r = true /\ method req <> "OPTIONS" /\
   field "timestamp" r = Some (JStr (isoformat (utcnow w))) /\
   reported_version r = Some (JStr (VERSION cfg))) \/
  r = not_found cfg (HTTPException 404) \/
  r = internal_error cfg (HTTPException 500) \/
  r = default_error_response 400 \/ r = default_error_response 405 \/
  r = default_error_response 415 \/
  (exists t q, r = redirect_response t q).
Proof.
  intros r. subst r. unfold full_dispatch_request.
  destruct (url_match fw (path req) (method req)) as [ep|t| |].
  - destruct (String.eqb_spec (method req) "OPTIONS") as [Ho|Ho]; [auto|].
    destruct ep; cbn [view_functions].
    + auto.
    + right; left. repeat split; auto.
    + unfold health, gethostname. destruct (hostname w); cbn; [|auto].
      right; left. repeat split; auto.
    + unfold echo, get_json.
      destruct (is_json req);
        [destruct (loads fw (data req)) | destruct (on_non_json fw)]; cbn; auto 10;
        right; left; repeat split; auto.
    + unfold info, gethostname. destruct (hostname w); cbn; [|auto].
      right; left. repeat split; auto.
  - do 7 right. eauto.
  - auto 10.
  - auto.
Qed.

(** The document of a response, with what decides whether JSON can
    write it. *)
Lemma document_cases fw cfg w req :
  let r := full_dispatch_request fw cfg w req in
  (r = make_default_options_response /\ method req = "OPTIONS") \/
  (method req <> "OPTIONS" /\
   exists d, r = jsonify d /\
             strict d = negb (echoes_non_finite fw req)) \/
  r = not_found cfg (HTTPException 404) \/
  r = internal_error cfg (HTTPException 500) \/
  r = default_error_response 400 \/ r = default_error_response 405 \/
  r = default_error_response 415 \/
  (exists t q, r = redirect_response t q).
Proof.
  intros r. subst r. unfold full_dispatch_request.
  destruct (url_match fw (path req) (method req)) as [ep|t| |] eqn:E.
  - destruct (String.eqb_spec (method req) "OPTIONS") as [Ho|Ho]; [auto|].
    pose proof (matched_path _ _ _ _ E) as Hp.
    assert (Hne : forall p, path req = p -> p <> "/api/echo" ->
                            echoes_non_finite fw req = false).
    { intros p Hq Hd. unfold echoes_non_finite. rewrite Hq.
      apply String.eqb_neq in Hd. rewrite Hd. reflexivity. }
    destruct ep; cbn [view_functions].
    + auto.
    + right; left. split; [exact Ho|]. eexists. split; [reflexivity|].
      rewrite (Hne _ Hp) by discriminate. reflexivity.
    + unfold health, gethostname. destruct (hostname w); cbn; [|auto].
      right; left. split; [exact Ho|]. eexists. split; [reflexivity|].
      rewrite (Hne _ Hp) by discriminate. reflexivity.
    + destruct (matched_echo_method _ _ _ E) as [Hm|Hm]; [|contradiction].
      unfold echoes_non_finite. rewrite Hp, Hm. unfold echo.
      cbn [String.eqb Ascii.eqb Bool.eqb andb].
      destruct (get_json fw req) as [v|[code| |]] eqn:G; cbn.
      * right; left. split; [discriminate|]. eexists. split; [reflexivity|].
        cbn. rewrite andb_true_r, negb_involutive. reflexivity.
      * unfold get_json in G.
        destruct (is_json req);
          [destruct (loads fw (data req)) | destruct (on_non_json fw)];
          try discriminate G; injection G as <-; cbn; auto 10.
      * auto.
      * auto.
    + unfold info, gethostname. destruct (hostname w); cbn; [|auto].
      right; left. split; [exact Ho|]. eexists. split; [reflexivity|].
      rewrite (Hne _ Hp) by discriminate. reflexivity.
  - do 7 right. eauto.
  - auto 10.
  - auto.
Qed.

(** When [echo] writes back a NaN or an infinity, the response is a 200
    to a POST. *)
Lemma non_finite_echo fw cfg w req :
  echoes_non_finite fw req = true ->
  method req = "POST" /\
  exists d, full_dispatch_request fw cfg w req = jsonify d /\ strict d = false.
Proof.
  unfold echoes_non_finite. intros H.
  apply andb_prop in H as [H Hv]. apply andb_prop in H as [Hp Hm].
  apply String.eqb_eq in Hp, Hm. split; [exact Hm|].
  rewrite dispatch_echo_post by assumption. unfold echo.
  destruct (get_json fw req) as [v|e]; [|discriminate Hv].
  apply negb_true_iff in Hv. cbn. eexists. split; [reflexivity|].
  cbn. rewrite Hv. reflexivity.
Qed.

(** C2 (as amended).  A response has Content-Type [application/json]
    exactly when a view or one of the two error handlers produced it:
    status 404, status 500, or status 200 for a method other than
    OPTIONS.  Its body is then a JSON document, except to HEAD, where the
    body is empty; and the document is the text of valid JSON unless it
    is the echo of a body with a NaN or an infinity in it.  The responses
    the framework builds itself (405, the 400 or 415 of [get_json], the
    redirect, the OPTIONS reply) are not JSON. *)
Theorem json_exactly_from_views_and_handlers fw cfg w req :
  let r := wsgi_app fw cfg w req in
  let from_app :=
    status r = 404 \/ status r = 500 \/
    (status r = 200 /\ method req <> "OPTIONS") in
  (content_type r = "application/json" <-> from_app) /\
  ((exists d, body r = JsonBody d) <-> from_app /\ method req <> "HEAD") /\
  (valid_json_body r = true <->
   from_app /\ method req <> "HEAD" /\ echoes_non_finite fw req = false).
Proof.
  intros r from_app. subst r from_app. unfold wsgi_app.
  destruct (echoes_non_finite fw req) eqn:En.
  - destruct (non_finite_echo fw cfg w req En) as (Hm & d & E & Hd).
    rewrite E, Hm. cbn. unfold valid_json_body. cbn. rewrite Hd.
    repeat split; intros; try discriminate; eauto;
      try (right; right; split; [reflexivity|discriminate]).
    + destruct H as (_ & _ & H). discriminate H.
  - pose proof (document_cases fw cfg w req) as H. cbv zeta in H. rewrite En in H.
    destruct (String.eqb_spec (method req) "HEAD") as [Hh|Hh].
    + destruct H as [[E Ho]|[(Ho & d & E & Hd)|[E|[E|[E|[E|[E|(t & q & E)]]]]]]];
        rewrite E; cbn; unfold valid_json_body; cbn;
        repeat split; intros;
        repeat match goal with
               | H : _ /\ _ |- _ => destruct H
               | H : ex _ |- _ => destruct H
               | H : _ \/ _ |- _ => destruct H
               end; try discriminate; try contradiction; try congruence; auto.
    + destruct H as [[E Ho]|[(Ho & d & E & Hd)|[E|[E|[E|[E|[E|(t & q & E)]]]]]]];
        rewrite E; cbn; unfold valid_json_body; cbn; try rewrite Hd;
        repeat split; intros;
        repeat match goal with
               | H : _ /\ _ |- _ => destruct H
               | H : ex _ |- _ => destruct H
               | H : _ \/ _ |- _ => destruct H
               end; try discriminate; try contradiction; try congruence; eauto 6.
Qed.


(** C4 (as amended).  The 200 response to a GET of [/api/info] has
    exactly the fields [application], [system] and [timestamp];
    [application] has [name], [version], [build_sha], [environment], and
    [system] has [hostname] and [python_version]. *)
Theorem info_field_names fw cfg w req :
  method req = "GET" -> path req = "/api/info" ->
  let r := full_dispatch_request fw cfg w req in
  status r = 200 ->
  field_names r = ["application"; "system"; "timestamp"] /\
  option_map keys (field "application" r)
    = Some ["name"; "version"; "build_sha"; "environment"] /\
  option_map keys (field "system" r) = Some ["hostname"; "python_version"].
Proof.
  intros Hm Hp r. subst r. unfold full_dispatch_request.
  rewrite Hp, Hm, url_match_info.
  cbn [mem existsb String.eqb Ascii.eqb Bool.eqb orb view_functions].
  unfold info, gethostname. destruct (hostname w); cbn.
  - auto.
  - discriminate.
Qed.

(** The views read [os.environ] for [ENVIRONMENT] and nothing else. *)
Lemma dispatch_environ fw cfg w req env' :
  env' !! "ENVIRONMENT" = environ w !! "ENVIRONMENT" ->
  full_dispatch_request fw cfg (with_environ w env') req
  = full_dispatch_request fw cfg w req.
Proof.
  intros He. unfold full_dispatch_request.
  destruct (url_match fw (path req) (method req)) as [ep|t| |]; try reflexivity.
  destruct (String.eqb (method req) "OPTIONS"); [reflexivity|].
  destruct ep; try reflexivity.
  cbn [view_functions]. unfold info, getenv.
  cbn [with_environ environ hostname utcnow sys_version gethostname].
  rewrite He. reflexivity.
Qed.

(** C5 (as amended).  [VERSION] and [BUILD_SHA] are bound when the module
    is imported (and the port in the main block); the views read the
    environment again only for [ENVIRONMENT].  Replacing [os.environ] by
    one with the same [ENVIRONMENT] changes no response; in particular
    setting any other variable ([APP_VERSION], [BUILD_SHA], [PORT]) does
    not; and [/api/info] reports the [ENVIRONMENT] of the moment of the
    request (default ["development"]). *)
Theorem environment_read_per_request fw env0 w req :
  let cfg := import_app env0 in
  (forall env' : gmap string string,
     env' !! "ENVIRONMENT" = environ w !! "ENVIRONMENT" ->
     full_dispatch_request fw cfg (with_environ w env') req
     = full_dispatch_request fw cfg w req) /\
  (forall k v : string,
     k <> "ENVIRONMENT" ->
     full_dispatch_request fw cfg (with_environ w (<[k:=v]> (environ w))) req
     = full_dispatch_request fw cfg w req) /\
  (path req = "/api/info" ->
   successful (full_dispatch_request fw cfg w req) = true ->
   field_path ["application"; "environment"] (full_dispatch_request fw cfg w req)
     = Some (JStr (getenv (environ w) "ENVIRONMENT" "development"))).
Proof.
  intros cfg. split; [|split].
  - intros env' He. apply dispatch_environ, He.
  - intros k v Hk. apply dispatch_environ.
    apply lookup_insert_ne. exact Hk.
  - intros Hp. unfold full_dispatch_request. rewrite Hp, url_match_info.
    destruct (mem (method req) ["GET"; "OPTIONS"; "HEAD"]); [|discriminate].
    destruct (String.eqb (method req) "OPTIONS"); [discriminate|].
    cbn [view_functions]. unfold info, gethostname.
    destruct (hostname w); cbn; [reflexivity|discriminate].
Qed.

(** C6 (as amended).  With [APP_VERSION] set to [x] when the process
    starts, every JSON document the service sends reports [x]: GET [/]
    always, GET [/health] whether it succeeds or not, and a POST to
    [/api/echo] that [json.loads] returns a value for, in their [version]
    field; GET [/api/info] in [application.version] (its document has no
    top-level [version]) or, when it fails, in the [version] of the 500
    document; every 404 and 500 in [version].  Unset, they report
    ["1.0.0"].  The framework's own pages, and the empty body sent to
    HEAD, carry no version. *)
Theorem version_everywhere env fw w req :
  let cfg := import_app env in
  let ver := JStr (default "1.0.0" (env !! "APP_VERSION")) in
  let r := wsgi_app fw cfg w req in
  (path req = "/" -> method req = "GET" ->
   status r = 200 /\ field "version" r = Some ver) /\
  (path req = "/health" -> method req = "GET" ->
   (status r = 200 \/ status r = 500) /\ field "version" r = Some ver) /\
  (path req = "/api/echo" -> method req = "POST" -> is_json req = true ->
   forall v, loads fw (data req) = Value v ->
   status r = 200 /\ field "version" r = Some ver) /\
  (path req = "/api/info" -> method req = "GET" ->
   match hostname w with
   | Some _ =>
       status r = 200 /\ field "version" r = None /\
       field_path ["application"; "version"] r = Some ver
   | None => status r = 500 /\ field "version" r = Some ver
   end) /\
  (method req <> "HEAD" -> status r = 404 \/ status r = 500 ->
   field "version" r = Some ver) /\
  (is_json_response r = true -> reported_version r = Some ver) /\
  (is_json_response r = false -> reported_version r = None).
Proof.
  intros cfg ver r. subst r.
  assert (NH : forall m, method req = m -> m <> "HEAD" ->
               wsgi_app fw cfg w req = full_dispatch_request fw cfg w req).
  { intros m Hm Hd. unfold wsgi_app. rewrite Hm.
    apply String.eqb_neq in Hd. rewrite Hd. reflexivity. }
  split; [intros Hp Hm|].
  { rewrite (NH _ Hm) by discriminate.
    unfold full_dispatch_request. rewrite Hp, Hm, url_match_home.
    split; reflexivity. }
  split; [intros Hp Hm|].
  { rewrite (NH _ Hm) by discriminate.
    unfold full_dispatch_request. rewrite Hp, Hm, url_match_health.
    cbn. unfold health, gethostname. destruct (hostname w); cbn; auto. }
  split; [intros Hp Hm Hj v Hv|].
  { rewrite (NH _ Hm) by discriminate.
    rewrite dispatch_echo_post by assumption. unfold echo, get_json.
    rewrite Hj, Hv. split; reflexivity. }
  split; [intros Hp Hm|].
  { rewrite (NH _ Hm) by discriminate.
    unfold full_dispatch_request. rewrite Hp, Hm, url_match_info.
    cbn. unfold info, gethostname. destruct (hostname w); cbn; auto. }
  pose proof (response_cases fw cfg w req) as C. cbv zeta in C.
  split; [intros Hh H|].
  { rewrite (NH _ eq_refl Hh) in H. rewrite (NH _ eq_refl Hh).
    destruct C as [[E _]|[(Hs & _)|[E|[E|[E|[E|[E|(t & q & E)]]]]]]];
      try rewrite E in *; try rewrite Hs in *;
      destruct H as [H|H]; try discriminate H; reflexivity. }
  destruct (String.eqb_spec (method req) "HEAD") as [Hh|Hh].
  - unfold wsgi_app. rewrite Hh. cbn. unfold is_json_response. cbn.
    rewrite andb_false_r. split; [discriminate|reflexivity].
  - rewrite (NH _ eq_refl Hh). split; intros H.
    + destruct C as [[E _]|[(_ & _ & _ & _ & Hv)|[E|[E|[E|[E|[E|(t & q & E)]]]]]]];
        try rewrite E in *; try discriminate; auto.
    + destruct C as [[E _]|[(_ & Hj & _)|[E|[E|[E|[E|[E|(t & q & E)]]]]]]];
        try rewrite E in *; try discriminate; try reflexivity; congruence.
Qed.

Lemma length_string_of_list_ascii l :
  String.length (string_of_list_ascii l) = length l.
Proof. induction l as [|c l IH]; cbn; [reflexivity|]. rewrite IH. reflexivity. Qed.

(** A timestamp is 19 characters, or 26 with its six-digit fraction. *)
Lemma isoformat_length d :
  valid d ->
  String.length (isoformat d) = if microsecond d =? 0 then 19%nat else 26%nat.
Proof.
  intros V. unfold isoformat.
  rewrite length_string_of_list_ascii, iso_chars_fixed by assumption.
  unfold iso_fixed.
  repeat (rewrite length_app, fixed_length; cbn [length]).
  destruct (microsecond d =? 0); cbn [length]; [reflexivity|].
  rewrite fixed_length. reflexivity.
Qed.

(** C8.  The [timestamp] of a successful response is the ISO text of the
    clock read while that request is served.  The text is
    [YYYY-MM-DDTHH:MM:SS], followed by [.ffffff] unless the microseconds
    are zero, with no offset; read back it gives the same instant.  Texts
    compare as their instants do, so when the clock of a later request is
    not behind that of an earlier one, neither is its timestamp. *)
Theorem timestamps_fresh_iso_ordered fw cfg w1 w2 req1 req2 :
  valid (utcnow w1) -> valid (utcnow w2) ->
  let r1 := full_dispatch_request fw cfg w1 req1 in
  let r2 := full_dispatch_request fw cfg w2 req2 in
  let t1 := isoformat (utcnow w1) in
  let t2 := isoformat (utcnow w2) in
  successful r1 = true -> successful r2 = true ->
  (field "timestamp" r1 = Some (JStr t1) /\ field "timestamp" r2 = Some (JStr t2)) /\
  (fromisoformat t1 = Some (utcnow w1) /\ fromisoformat t2 = Some (utcnow w2)) /\
  (String.length t1 = (if microsecond (utcnow w1) =? 0 then 19%nat else 26%nat) /\
   String.length t2 = (if microsecond (utcnow w2) =? 0 then 19%nat else 26%nat)) /\
  str_cmp t1 t2 = cmp (utcnow w1) (utcnow w2) /\
  (DateTime.le (utcnow w1) (utcnow w2) -> str_le t1 t2).
Proof.
  intros V1 V2 r1 r2 t1 t2 S1 S2.
  assert (F : forall w req,
             successful (full_dispatch_request fw cfg w req) = true ->
             field "timestamp" (full_dispatch_request fw cfg w req)
             = Some (JStr (isoformat (utcnow w)))).
  { intros w req. pose proof (response_cases fw cfg w req) as H. cbv zeta in H.
    destruct H as [[E _]|[(_ & _ & _ & Ht & _)|[E|[E|[E|[E|[E|(t & q & E)]]]]]]];
      try rewrite E; try discriminate; auto. }
  split; [split; apply F; assumption|].
  split; [split; apply fromisoformat_isoformat; assumption|].
  split; [split; apply isoformat_length; assumption|].
  assert (C := isoformat_cmp _ _ V1 V2). fold t1 t2 in C.
  split; [exact C|]. unfold str_le, DateTime.le. rewrite C. auto.
Qed.

End Service.

(** ** The properties on concrete requests *)

Module Examples.
Import Sample Service.

(** The test body comes back as posted. *)
Lemma echo_round_trip_hello :
  loads flask3 hello_text = Value hello /\
  (let r := wsgi_app flask3 (import_app ∅) (world ∅ noon)
              (post_json "/api/echo" hello_text) in
   status r = 200 /\ content_type r = "application/json" /\
   field "received" r = Some hello /\
   has_field "version" r = true /\ has_field "timestamp" r = true).
Proof.
  split; [vm_compute; reflexivity|].
  pose proof (echo_round_trip flask3 (import_app ∅) (world ∅ noon) ""
                [("Content-Type", "application/json")] hello_text) as H.
  cbv zeta in H.
  change (loads flask3 hello_text) with (Value hello) in H. exact H.
Defined.

(** A hundred thousand arrays, one inside the other: well-formed JSON
    (a reader allowed that depth reads it), yet the service answers 500. *)
Lemma deep_body_is_500 :
  let deep := nested_text very_deep in
  let r := wsgi_app flask3 (import_app ∅) (world ∅ noon)
             (post_json "/api/echo" deep) in
  match json_loads very_deep deep with Value _ => true | _ => false end = true /\
  loads flask3 deep = TooDeep /\
  status r = 500 /\ field "received" r = None /\
  field "error" r = Some (JStr "Internal Server Error").
Proof. vm_compute. repeat split. Qed.

(** GET [/api/echo]: a 405 HTML page, under either release. *)
Lemma get_echo_is_html :
  let r3 := full_dispatch_request flask3 (import_app ∅) (world ∅ noon)
              (get_ "/api/echo") in
  let r1 := full_dispatch_request flask1 (import_app ∅) (world ∅ noon)
              (get_ "/api/echo") in
  (status r3 = 405 /\ content_type r3 = "text/html; charset=utf-8" /\
   body r3 = ErrorPage 405 /\ is_json_response r3 = false) /\
  (status r1 = 405 /\ content_type r1 = "text/html; charset=utf-8" /\
   body r1 = ErrorPage 405 /\ is_json_response r1 = false).
Proof. vm_compute. repeat split. Qed.



(** [/api/info] has no [runtime_version]. *)
Lemma info_has_python_version :
  let r := full_dispatch_request flask3 (import_app ∅) (world ∅ noon)
             (get_ "/api/info") in
  status r = 200 /\
  field_path ["system"; "runtime_version"] r = None /\
  field_path ["system"; "python_version"] r = Some (JStr "3.11.9 (main)") /\
  option_map keys (field "system" r) = Some ["hostname"; "python_version"].
Proof. vm_compute. repeat split. Qed.

(** The field names of [/api/info] on a host with a name. *)
Lemma info_field_names_get :
  (method (get_ "/api/info") = "GET" /\ path (get_ "/api/info") = "/api/info" /\
   status (full_dispatch_request flask3 (import_app ∅) (world ∅ noon)
             (get_ "/api/info")) = 200) /\
  (let r := full_dispatch_request flask3 (import_app ∅) (world ∅ noon)
              (get_ "/api/info") in
   field_names r = ["application"; "system"; "timestamp"] /\
   option_map keys (field "application" r)
     = Some ["name"; "version"; "build_sha"; "environment"] /\
   option_map keys (field "system" r) = Some ["hostname"; "python_version"]).
Proof.
  split; [repeat split; vm_compute; reflexivity|].
  apply (info_field_names flask3 (import_app ∅) (world ∅ noon) (get_ "/api/info"));
    vm_compute; reflexivity.
Defined.

(** Started without [ENVIRONMENT], asked after it was set: the response
    shows the new value, not the one of the start. *)
Lemma environment_follows_the_process :
  let r := full_dispatch_request flask3 (import_app ∅) (world production noon)
             (get_ "/api/info") in
  getenv ∅ "ENVIRONMENT" "development" = "development" /\
  status r = 200 /\
  field_path ["application"; "environment"] r = Some (JStr "production").
Proof. vm_compute. repeat split. Qed.

(** Started with [APP_VERSION=2.3.1], [ENVIRONMENT=production] at the
    request: setting [APP_VERSION] or [PORT] afterwards changes nothing,
    and the response names [production]. *)
Lemma environment_read_per_request_production :
  let cfg := import_app released in
  let w := world production noon in
  let r := full_dispatch_request flask3 cfg w (get_ "/api/info") in
  full_dispatch_request flask3 cfg
    (with_environ w (<["APP_VERSION" := "9.9.9"]> (environ w))) (get_ "/api/info") = r /\
  full_dispatch_request flask3 cfg
    (with_environ w (<["PORT" := "8080"]> (environ w))) (get_ "/api/info") = r /\
  field_path ["application"; "version"] r = Some (JStr "2.3.1") /\
  field_path ["application"; "environment"] r = Some (JStr "production").
Proof.
  destruct (environment_read_per_request flask3 released (world production noon)
              (get_ "/api/info")) as (_ & Hset & Henv).
  split; [apply Hset; discriminate|].
  split; [apply Hset; discriminate|].
  split; [reflexivity|].
  apply Henv; reflexivity.
Defined.

(** The port of the main block: 5000 unless [PORT] is set; a [PORT] that
    is not a number stops the start. *)
Lemma main_port_examples :
  main_port cpython ∅ = Some 5000 /\
  main_port cpython {[ "PORT" := "8080" ]} = Some 8080 /\
  main_port cpython {[ "PORT" := " 8_080 " ]} = Some 8080 /\
  main_port cpython {[ "PORT" := "http" ]} = None.
Proof. vm_compute. repeat split. Qed.



(** OPTIONS [/api/echo]: Flask answers it, 200 and no body. *)
Lemma options_echo_is_answered :
  let opt := mkRequest "OPTIONS" "/api/echo" "" [] "" "" in
  let r3 := full_dispatch_request flask3 (import_app ∅) (world ∅ noon) opt in
  let r1 := full_dispatch_request flask1 (import_app ∅) (world ∅ noon) opt in
  String.eqb (method opt) "POST" = false /\
  (status r3 = 200 /\ body r3 = NoBody) /\ (status r1 = 200 /\ body r1 = NoBody).
Proof. vm_compute. repeat split. Qed.

(** GET [/api/echo] is refused, OPTIONS [/api/echo] answered. *)
Lemma echo_method_not_allowed_get :
  let opt := mkRequest "OPTIONS" "/api/echo" "" [] "" "" in
  (path (get_ "/api/echo") = "/api/echo" /\ path opt = "/api/echo" /\
   String.eqb (method (get_ "/api/echo")) "POST" = false /\
   String.eqb (method (get_ "/api/echo")) "OPTIONS" = false /\
   method opt = "OPTIONS") /\
  (wsgi_app flask3 (import_app ∅) (world ∅ noon) (get_ "/api/echo")
   = default_error_response 405 /\
   wsgi_app flask3 (import_app ∅) (world ∅ noon) opt
   = make_default_options_response).
Proof.
  split; [repeat split|].
  split.
  - apply (echo_method_not_allowed flask3 (import_app ∅) (world ∅ noon)
             (get_ "/api/echo") eq_refl); discriminate.
  - apply (echo_method_not_allowed flask3 (import_app ∅) (world ∅ noon)
             (mkRequest "OPTIONS" "/api/echo" "" [] "" "") eq_refl).
    reflexivity.
Defined.

(** [/health] asked plainly, and with a query string, a header and a body. *)
Lemma request_content_ignored_health :
  (path (get_ "/health") = "/health" /\
   path (mkRequest "GET" "/health" "verbose=1" [("X-Trace", "7")]
                   "application/json" hello_text) = path (get_ "/health") /\
   method (mkRequest "GET" "/health" "verbose=1" [("X-Trace", "7")]
                     "application/json" hello_text) = method (get_ "/health")) /\
  full_dispatch_request flask3 (import_app ∅) (world ∅ noon)
    (mkRequest "GET" "/health" "verbose=1" [("X-Trace", "7")]
               "application/json" hello_text)
  = full_dispatch_request flask3 (import_app ∅) (world ∅ noon) (get_ "/health").
Proof.
  split; [repeat split|].
  apply (request_content_ignored flask3 (import_app ∅) (world ∅ noon)
           (get_ "/health")); [right; left; reflexivity|reflexivity|reflexivity].
Defined.

(** [/] at noon, then [/health] a quarter of a second later. *)
Lemma timestamps_noon_then_later :
  (valid noon /\ valid later /\
   successful (full_dispatch_request flask3 (import_app ∅) (world ∅ noon)
                 (get_ "/")) = true /\
   successful (full_dispatch_request flask3 (import_app ∅) (world ∅ later)
                 (get_ "/health")) = true) /\
  (let r1 := full_dispatch_request flask3 (import_app ∅) (world ∅ noon) (get_ "/") in
   let r2 := full_dispatch_request flask3 (import_app ∅) (world ∅ later)
               (get_ "/health") in
   let t1 := isoformat noon in
   let t2 := isoformat later in
   (field "timestamp" r1 = Some (JStr t1) /\ field "timestamp" r2 = Some (JStr t2)) /\
   (fromisoformat t1 = Some noon /\ fromisoformat t2 = Some later) /\
   (String.length t1 = (if microsecond noon =? 0 then 19%nat else 26%nat) /\
    String.length t2 = (if microsecond later =? 0 then 19%nat else 26%nat)) /\
   str_cmp t1 t2 = cmp noon later /\
   (DateTime.le noon later -> str_le t1 t2)).
Proof.
  assert (Vn : valid noon) by (apply IsoFacts.validb_valid; reflexivity).
  assert (Vl : valid later) by (apply IsoFacts.validb_valid; reflexivity).
  split; [repeat split; solve [apply Vn | apply Vl | reflexivity]|].
  apply (timestamps_fresh_iso_ordered flask3 (import_app ∅) (world ∅ noon)
           (world ∅ later) (get_ "/") (get_ "/health") Vn Vl); reflexivity.
Defined.

(** The two timestamps of the witness, as text. *)
Lemma timestamps_as_text :
  isoformat noon = "2024-05-17T12:00:00" /\
  isoformat later = "2024-05-17T12:00:00.250000".
Proof. split; reflexivity. Qed.

(** [APP_VERSION=2.3.1]: all six documents say so; unset, ["1.0.0"]. *)
Lemma version_2_3_1 :
  let cfg := import_app released in
  let ask w req := reported_version (full_dispatch_request flask3 cfg w req) in
  ask (world ∅ noon) (get_ "/") = Some (JStr "2.3.1") /\
  ask (world ∅ noon) (get_ "/health") = Some (JStr "2.3.1") /\
  ask (world ∅ noon) (post_json "/api/echo" hello_text) = Some (JStr "2.3.1") /\
  ask (world ∅ noon) (get_ "/api/info") = Some (JStr "2.3.1") /\
  ask (world ∅ noon) (get_ "/nonexistent") = Some (JStr "2.3.1") /\
  ask (nameless noon) (get_ "/health") = Some (JStr "2.3.1") /\
  status (full_dispatch_request flask3 cfg (nameless noon) (get_ "/health")) = 500 /\
  reported_version (full_dispatch_request flask3 (import_app ∅) (world ∅ noon)
                      (get_ "/")) = Some (JStr "1.0.0").
Proof. vm_compute. repeat split. Qed.

(** Two responses of the endpoints without a [version] field: the 400
    page of [/api/echo] for a body that is not JSON, which reports no
    version at all, and the document of [/api/info], which has its version
    inside [application]. *)
Lemma responses_without_a_version_field :
  let cfg := import_app released in
  let bad := wsgi_app flask3 cfg (world ∅ noon) (post_json "/api/echo" "{bad") in
  let inf := wsgi_app flask3 cfg (world ∅ noon) (get_ "/api/info") in
  (status bad = 400 /\ body bad = ErrorPage 400 /\
   field "version" bad = None /\ reported_version bad = None) /\
  (status inf = 200 /\ field "version" inf = None /\
   field_path ["application"; "version"] inf = Some (JStr "2.3.1")).
Proof. vm_compute. repeat split. Qed.

(** [/] and [/api/echo] with [APP_VERSION=2.3.1]. *)
Lemma version_everywhere_2_3_1 :
  let cfg := import_app released in
  let home_ := wsgi_app flask3 cfg (world ∅ noon) (get_ "/") in
  let echo_ := wsgi_app flask3 cfg (world ∅ noon)
                 (post_json "/api/echo" hello_text) in
  (status home_ = 200 /\ field "version" home_ = Some (JStr "2.3.1")) /\
  (status echo_ = 200 /\ field "version" echo_ = Some (JStr "2.3.1")).
Proof.
  split.
  - apply (version_everywhere released flask3 (world ∅ noon) (get_ "/"));
      reflexivity.
  - apply (version_everywhere released flask3 (world ∅ noon)
             (post_json "/api/echo" hello_text)) with (v := hello);
      vm_compute; reflexivity.
Defined.

(** What leaves the server for a HEAD of [/] and for the echo of [NaN]:
    Content-Type [application/json] both times, over an empty body and
    over a document that is not JSON. *)
Lemma head_and_nan_on_the_wire :
  let head := wsgi_app flask3 (import_app ∅) (world ∅ noon)
                (mkRequest "HEAD" "/" "" [] "" "") in
  let nan_ := wsgi_app flask3 (import_app ∅) (world ∅ noon)
                (post_json "/api/echo" "NaN") in
  (status head = 200 /\ content_type head = "application/json" /\
   body head = NoBody) /\
  (status nan_ = 200 /\ content_type nan_ = "application/json" /\
   field "received" nan_ = Some (JFloat nan) /\ valid_json_body nan_ = false).
Proof. vm_compute. repeat split. Qed.

End Examples.

(** ** The four views and the two handlers, route by route *)

Module Views.
Import RoutingFacts.

Lemma mem_get_methods m :
  m <> "GET" -> m <> "HEAD" -> m <> "OPTIONS" ->
  mem m ["GET"; "OPTIONS"; "HEAD"] = false.
Proof.
  intros H1 H2 H3. rewrite !mem_cons, mem_nil.
  apply String.eqb_neq in H1, H2, H3. rewrite H1, H2, H3. reflexivity.
Qed.

(** X1.  GET [/] always succeeds, also on a host whose name cannot be
    resolved: status 200 and a document with exactly the fields
    [service], [version], [build_sha], [status], [timestamp], where
    [service] is ["CI/CD Demo Application"] and [status] is ["running"]. *)
Theorem home_always_serves fw cfg w req :
  path req = "/" -> method req = "GET" ->
  let r := full_dispatch_request fw cfg w req in
  status r = 200 /\ content_type r = "application/json" /\
  field_names r = ["service"; "version"; "build_sha"; "status"; "timestamp"] /\
  field "service" r = Some (JStr "CI/CD Demo Application") /\
  field "status" r = Some (JStr "running") /\
  field "build_sha" r = Some (JStr (BUILD_SHA cfg)).
Proof.
  intros Hp Hm r. subst r. unfold full_dispatch_request.
  rewrite Hp, Hm, url_match_home. repeat split.
Qed.

(** X2.  On a host named [h], GET [/health] has status 200 and a document
    with exactly the fields [status], [version], [hostname], [timestamp],
    where [status] is ["healthy"] and [hostname] is [h]. *)
Theorem health_reports_host fw cfg w req h :
  hostname w = Some h ->
  path req = "/health" -> method req = "GET" ->
  let r := full_dispatch_request fw cfg w req in
  status r = 200 /\ content_type r = "application/json" /\
  field_names r = ["status"; "version"; "hostname"; "timestamp"] /\
  field "status" r = Some (JStr "healthy") /\
  field "hostname" r = Some (JStr h).
Proof.
  intros Hh Hp Hm r. subst r. unfold full_dispatch_request.
  rewrite Hp, Hm, url_match_health.
  cbn [mem existsb String.eqb Ascii.eqb Bool.eqb orb view_functions].
  unfold health, gethostname. rewrite Hh. repeat split.
Qed.

(** X3.  On a host named [h], GET [/api/info] names the application
    ["CI/CD Demo Application"], gives the build of the import, the host
    [h] and the interpreter's version string. *)
Theorem info_reports_build_and_host fw cfg w req h :
  hostname w = Some h ->
  path req = "/api/info" -> method req = "GET" ->
  let r := full_dispatch_request fw cfg w req in
  status r = 200 /\
  field_path ["application"; "name"] r = Some (JStr "CI/CD Demo Application") /\
  field_path ["application"; "build_sha"] r = Some (JStr (BUILD_SHA cfg)) /\
  field_path ["system"; "hostname"] r = Some (JStr h) /\
  field_path ["system"; "python_version"] r = Some (JStr (sys_version w)).
Proof.
  intros Hh Hp Hm r. subst r. unfold full_dispatch_request.
  rewrite Hp, Hm, url_match_info.
  cbn [mem existsb String.eqb Ascii.eqb Bool.eqb orb view_functions].
  unfold info, gethostname. rewrite Hh. repeat split.
Qed.

(** X4.  When the host name cannot be resolved, GET [/health] and GET
    [/api/info] are answered by [internal_error]: status 500 and a JSON
    document with exactly [error] (["Internal Server Error"]), [message]
    (["An unexpected error occurred"]) and [version]. *)
Theorem unresolved_host_is_500 fw cfg w req :
  hostname w = None ->
  path req = "/health" \/ path req = "/api/info" -> method req = "GET" ->
  let r := full_dispatch_request fw cfg w req in
  status r = 500 /\ content_type r = "application/json" /\
  field_names r = ["error"; "message"; "version"] /\
  field "error" r = Some (JStr "Internal Server Error") /\
  field "message" r = Some (JStr "An unexpected error occurred") /\
  field "version" r = Some (JStr (VERSION cfg)).
Proof.
  intros Hh Hp Hm r. subst r. unfold full_dispatch_request.
  destruct Hp as [Hp|Hp]; rewrite Hp, Hm;
    [rewrite url_match_health | rewrite url_match_info];
    cbn [mem existsb String.eqb Ascii.eqb Bool.eqb orb view_functions];
    unfold health, info, gethostname; rewrite Hh; repeat split.
Qed.

(** X5.  A 500 has two causes only: the host name could not be resolved
    while [/health] or [/api/info] was served, or the body of a POST to
    [/api/echo] is nested deeper than the interpreter allows.  No request
    to [/], no unknown path and no method produces it. *)
Theorem only_the_host_name_fails fw cfg w req :
  status (full_dispatch_request fw cfg w req) = 500 ->
  (hostname w = None /\ (path req = "/health" \/ path req = "/api/info")) \/
  (path req = "/api/echo" /\ method req = "POST" /\
   is_json req = true /\ loads fw (data req) = TooDeep).
Proof.
  unfold full_dispatch_request.
  destruct (url_match fw (path req) (method req)) as [ep|t| |] eqn:E;
    try discriminate.
  pose proof (matched_path _ _ _ _ E) as Hp.
  destruct (String.eqb_spec (method req) "OPTIONS") as [Ho|Ho]; [discriminate|].
  destruct ep; cbn [view_functions]; try discriminate.
  - unfold health, gethostname. destruct (hostname w); cbn; [discriminate|auto].
  - destruct (matched_echo_method _ _ _ E) as [Hm|Hm]; [|contradiction].
    unfold echo, get_json.
    destruct (is_json req);
      [destruct (loads fw (data req)) | destruct (on_non_json fw)];
      try discriminate. auto.
  - unfold info, gethostname. destruct (hostname w); cbn; [discriminate|auto].
Qed.

(** X6.  [build_sha] is the [BUILD_SHA] of the environment the module was
    imported in, ["dev"] when unset.  GET [/] always carries it in its
    top-level [build_sha], and GET [/api/info] on a host with a name in
    [application.build_sha]; no other response has either field. *)
Theorem build_sha_of_the_import env fw w req :
  let cfg := import_app env in
  let sha := JStr (default "dev" (env !! "BUILD_SHA")) in
  let r := full_dispatch_request fw cfg w req in
  (path req = "/" -> method req = "GET" ->
   status r = 200 /\ field "build_sha" r = Some sha) /\
  (path req = "/api/info" -> method req = "GET" -> hostname w <> None ->
   status r = 200 /\ field_path ["application"; "build_sha"] r = Some sha) /\
  (forall v, field "build_sha" r = Some v -> path req = "/" /\ v = sha) /\
  (forall v, field_path ["application"; "build_sha"] r = Some v ->
             path req = "/api/info" /\ v = sha).
Proof.
  intros cfg sha r. subst r.
  split; [intros Hp Hm|].
  { unfold full_dispatch_request. rewrite Hp, Hm, url_match_home.
    split; reflexivity. }
  split; [intros Hp Hm Hh|].
  { unfold full_dispatch_request. rewrite Hp, Hm, url_match_info.
    cbn. unfold info, gethostname. destruct (hostname w); [|contradiction].
    split; reflexivity. }
  unfold full_dispatch_request.
  destruct (url_match fw (path req) (method req)) as [ep|t| |] eqn:E;
    [|split; intros x; discriminate..].
  apply matched_path in E.
  destruct (String.eqb (method req) "OPTIONS"); [split; intros x; discriminate|].
  destruct ep; cbn [view_functions].
  - split; intros x; discriminate.
  - split; intros x; [intros [= <-]; auto | discriminate].
  - unfold health, gethostname.
    destruct (hostname w); cbn; split; intros x; discriminate.
  - unfold echo, get_json.
    destruct (is_json req);
      [destruct (loads fw (data req)) | destruct (on_non_json fw)];
      cbn; split; intros x; discriminate.
  - unfold info, gethostname. destruct (hostname w); cbn; split; intros x;
      try discriminate. intros [= <-]. auto.
Qed.

(** X7.  [/], [/health] and [/api/info] are registered for GET: any
    method other than GET, HEAD and OPTIONS gets the routing layer's 405
    page, not a JSON document. *)
Theorem get_routes_refuse_other_methods fw cfg w req :
  path req = "/" \/ path req = "/health" \/ path req = "/api/info" ->
  method req <> "GET" -> method req <> "HEAD" -> method req <> "OPTIONS" ->
  let r := full_dispatch_request fw cfg w req in
  r = default_error_response 405 /\ is_json_response r = false.
Proof.
  intros Hp H1 H2 H3 r. subst r. unfold full_dispatch_request.
  destruct Hp as [Hp|[Hp|Hp]]; rewrite Hp;
    [rewrite url_match_home | rewrite url_match_health | rewrite url_match_info];
    rewrite mem_get_methods by assumption; split; reflexivity.
Qed.


(** X9.  [/] and [/api/echo] read nothing of the host: with the same
    clock, their responses are the same whatever the host name (resolved
    or not), the environment and the interpreter. *)
Theorem home_and_echo_ignore_the_host fw cfg w w' req :
  utcnow w' = utcnow w ->
  path req = "/" \/ path req = "/api/echo" ->
  full_dispatch_request fw cfg w' req = full_dispatch_request fw cfg w req.
Proof.
  intros Hc Hp. unfold full_dispatch_request.
  destruct Hp as [Hp|Hp]; rewrite Hp;
    [rewrite url_match_home | rewrite url_match_echo];
    match goal with |- context [mem ?m ?l] => destruct (mem m l) end;
    try reflexivity;
    destruct (String.eqb (method req) "OPTIONS"); try reflexivity;
    cbn [view_functions]; unfold home, echo; rewrite Hc; reflexivity.
Qed.

(** X10.  Of a request, [/api/echo] reads the method, the media type and
    the body, nothing else: two requests that agree on these get the same
    response, whatever their query strings and other headers. *)
Theorem echo_reads_body_and_media_type fw cfg w req1 req2 :
  path req1 = "/api/echo" -> path req2 = "/api/echo" ->
  method req2 = method req1 -> mimetype req2 = mimetype req1 ->
  data req2 = data req1 ->
  full_dispatch_request fw cfg w req2 = full_dispatch_request fw cfg w req1.
Proof.
  intros Hp1 Hp2 Hm Ht Hd. unfold full_dispatch_request.
  rewrite Hp1, Hp2, Hm, url_match_echo.
  destruct (mem (method req1) ["POST"; "OPTIONS"]); [|reflexivity].
  destruct (String.eqb (method req1) "OPTIONS"); [reflexivity|].
  cbn [view_functions]. unfold echo, get_json, is_json. rewrite Ht, Hd.
  reflexivity.
Qed.

End Views.

(** ** The port of the main block *)

Module PortFacts.
Import DateTimeFacts.

Lemma decimal_digits_all fuel : forall n acc,
  Forall (fun c => is_digit c = true) acc ->
  Forall (fun c => is_digit c = true) (decimal_digits fuel n acc).
Proof.
  induction fuel as [|fuel IH]; intros n acc Hacc; cbn [decimal_digits]; [exact Hacc|].
  assert (Hc : Forall (fun c => is_digit c = true) (digit (n mod 10) :: acc))
    by (constructor; [apply is_digit_digit|exact Hacc]).
  destruct (n <? 10); [exact Hc|apply IH, Hc].
Qed.

Lemma decimal_digits_nonempty fuel n acc :
  decimal_digits (S fuel) n acc <> [].
Proof.
  revert n acc. induction fuel as [|fuel IH]; intros n acc; cbn [decimal_digits].
  - destruct (n <? 10); discriminate.
  - destruct (n <? 10); [discriminate|]. apply (IH (n / 10)).
Qed.

(** Reading the digits of [n] back adds [n] to the shifted accumulator. *)
Lemma int_digits_decimal fuel : forall n acc,
  0 <= n -> (Z.to_nat n < fuel)%nat ->
  exists k : nat, forall a b,
    int_digits (decimal_digits fuel n acc) a b
    = int_digits acc (a * 10 ^ Z.of_nat k + n) true.
Proof.
  induction fuel as [|fuel IH]; intros n acc Hn Hf; [lia|].
  cbn [decimal_digits]. destruct (Z.ltb_spec n 10) as [Hlt|Hge].
  - exists 1%nat. intros a b. cbn [int_digits].
    rewrite is_digit_digit, digit_val_digit, Z.mod_small by lia.
    f_equal. change (10 ^ Z.of_nat 1) with 10. lia.
  - assert (Hq : 0 <= n / 10) by (apply Z.div_pos; lia).
    assert (Hlt : n / 10 < n) by (apply Z.div_lt; lia).
    destruct (IH (n / 10) (digit (n mod 10) :: acc) Hq ltac:(lia)) as [k Hk].
    exists (S k). intros a b. rewrite Hk. cbn [int_digits].
    rewrite is_digit_digit, digit_val_digit. f_equal.
    rewrite pow10_succ. pose proof (Z.div_mod n 10 ltac:(lia)). lia.
Qed.

Lemma int_digits_of_decimal n : 0 <= n -> int_digits (decimal n) 0 false = Some n.
Proof.
  intros Hn. unfold decimal.
  destruct (int_digits_decimal (S (Z.to_nat n)) n [] Hn ltac:(lia)) as [k Hk].
  rewrite Hk. cbn [int_digits]. reflexivity.
Qed.

Lemma digit_not_space c : is_digit c = true -> is_space c = false.
Proof.
  unfold is_digit, is_space. intros H.
  apply andb_prop in H as [H1 H2]. apply N.leb_le in H1. apply N.leb_le in H2.
  apply orb_false_intro; [apply N.eqb_neq; lia|].
  apply andb_false_intro2. apply N.leb_gt. lia.
Qed.

Lemma lstrip_id c cs : is_space c = false -> lstrip (c :: cs) = c :: cs.
Proof. intros H. cbn [lstrip]. rewrite H. reflexivity. Qed.

(** Text without white space at either end is left as it is. *)
Lemma strip_id cs :
  Forall (fun c => is_space c = false) cs -> strip cs = cs.
Proof.
  intros H. unfold strip.
  assert (L : forall l, Forall (fun c => is_space c = false) l -> lstrip l = l).
  { intros [|c l] Hl; [reflexivity|]. apply lstrip_id.
    apply (Forall_inv Hl). }
  rewrite (L cs H). rewrite L by (apply Forall_rev; exact H).
  apply rev_involutive.
Qed.

Lemma digit_below_127 c : is_digit c = true -> (N_of_ascii c <? 127)%N = true.
Proof.
  unfold is_digit. intros H. apply andb_prop in H as [_ H].
  apply N.leb_le in H. apply N.ltb_lt. lia.
Qed.

Lemma forallb_digits (P : ascii -> bool) cs :
  (forall c, is_digit c = true -> P c = true) ->
  Forall (fun c => is_digit c = true) cs -> forallb P cs = true.
Proof.
  intros HP H. induction H as [|c cs Hc _ IH]; cbn; [reflexivity|].
  rewrite (HP c Hc), IH. reflexivity.
Qed.

Lemma decimal_all n : Forall (fun c => is_digit c = true) (decimal n).
Proof. apply decimal_digits_all. constructor. Qed.

Lemma py_str_ascii z : ascii_only (py_str z) = true.
Proof.
  unfold ascii_only, py_str. rewrite list_ascii_of_string_of_list_ascii.
  destruct (z <? 0); cbn [forallb];
    rewrite (forallb_digits _ _ digit_below_127 (decimal_all _)); reflexivity.
Qed.

Lemma count_digits_all cs :
  Forall (fun c => is_digit c = true) cs -> count_digits cs = length cs.
Proof.
  intros H. induction H as [|c cs Hc _ IH]; cbn; [reflexivity|].
  rewrite Hc, IH. reflexivity.
Qed.

(** A number below [10 ^ w] has [w] digits at most. *)
Lemma decimal_length n w :
  (0 < w)%nat -> 0 <= n < 10 ^ Z.of_nat w -> (length (decimal n) <= w)%nat.
Proof.
  intros Hw Hn. destruct w as [|w]; [lia|].
  destruct (decimal_digits_fixed w (S (Z.to_nat n)) n [] Hn ltac:(lia)) as [z Hz].
  fold (decimal n) in Hz. rewrite app_nil_r in Hz.
  apply (f_equal (@length ascii)) in Hz.
  rewrite length_app, repeat_length, fixed_length in Hz. lia.
Qed.

(** The text of [str(z)] as [int] finds it, and the digits in it. *)
Lemma strip_py_str z :
  let cs := if z <? 0 then "-"%char :: decimal (- z) else decimal z in
  strip cs = cs /\ count_digits cs = length (decimal (Z.abs z)).
Proof.
  cbv zeta. destruct (Z.ltb_spec z 0) as [Hneg|Hpos].
  - replace (Z.abs z) with (- z) by lia. split.
    + apply strip_id. constructor; [reflexivity|].
      eapply Forall_impl; [apply decimal_all|]. apply digit_not_space.
    + cbn [count_digits]. change (is_digit "-") with false. cbv iota.
      apply count_digits_all, decimal_all.
  - replace (Z.abs z) with z by lia. split.
    + apply strip_id. eapply Forall_impl; [apply decimal_all|].
      apply digit_not_space.
    + apply count_digits_all, decimal_all.
Qed.

Lemma py_int_py_str py z :
  reads_ascii py ->
  int_max_str_digits py = 0%nat \/ Z.abs z < 10 ^ Z.of_nat (int_max_str_digits py) ->
  py_int py (py_str z) = Some z.
Proof.
  intros Hpy Hlim. unfold py_int. rewrite (Hpy _ (py_str_ascii z)).
  unfold py_str. rewrite list_ascii_of_string_of_list_ascii.
  destruct (strip_py_str z) as [Hs Hc]. cbv zeta. rewrite Hs, Hc.
  assert (Hcheck : (0 <? int_max_str_digits py)%nat &&
                   (int_max_str_digits py <? length (decimal (Z.abs z)))%nat = false).
  { destruct (int_max_str_digits py) as [|m]; [reflexivity|].
    destruct Hlim as [H0|Hlt]; [discriminate H0|].
    apply andb_false_intro2. apply Nat.ltb_ge. apply decimal_length; lia. }
  rewrite Hcheck.
  destruct (Z.ltb_spec z 0) as [Hneg|Hpos].
  - rewrite int_digits_of_decimal by lia. cbn. f_equal. lia.
  - destruct (decimal z) as [|c cs] eqn:E.
    + exfalso. revert E. apply decimal_digits_nonempty.
    + pose proof (decimal_all z) as D. rewrite E in D.
      pose proof (Forall_inv D) as Hd.
      assert (G : int_digits (c :: cs) 0 false = Some z)
        by (rewrite <- E; apply int_digits_of_decimal; exact Hpos).
      clear E D.
      destruct c as [[] [] [] [] [] [] [] []]; first [discriminate Hd | exact G].
Qed.

(** X11.  The port is 5000 when [PORT] is unset, and otherwise the
    integer [PORT] spells: for every integer [z] of no more digits than
    [int] accepts (4300 unless configured), [PORT] set to [str(z)] gives
    [z].  The main block checks no range: negative numbers and numbers
    above 65535 reach [app.run] as they are. *)
Theorem port_is_what_PORT_spells py (env : gmap string string) :
  reads_ascii py ->
  (env !! "PORT" = None -> main_port py env = Some 5000) /\
  (forall z,
     int_max_str_digits py = 0%nat \/
     Z.abs z < 10 ^ Z.of_nat (int_max_str_digits py) ->
     main_port py (<["PORT" := py_str z]> env) = Some z).
Proof.
  intros Hpy. split.
  - intros H. unfold main_port. rewrite H. reflexivity.
  - intros z Hz. unfold main_port. rewrite lookup_insert_eq.
    apply py_int_py_str; assumption.
Qed.

Lemma int_digits_has_digit cs : forall a b n,
  int_digits cs a b = Some n -> b = true \/ exists c, In c cs /\ is_digit c = true.
Proof.
  induction cs as [|c cs IH]; intros a b n H; cbn [int_digits] in H.
  - destruct b; [auto|discriminate].
  - destruct (is_digit c) eqn:Hd.
    + right. exists c. cbn [In]. auto.
    + destruct (Ascii.eqb c "_" && b); [|discriminate].
      apply IH in H as [H|(c' & Hin & Hc')]; [discriminate|].
      right. exists c'. cbn [In]. auto.
Qed.

Lemma lstrip_incl cs c : In c (lstrip cs) -> In c cs.
Proof.
  induction cs as [|x cs IH]; cbn [lstrip]; [auto|].
  destruct (is_space x); [|auto]. intros H. right. auto.
Qed.

Lemma strip_incl cs c : In c (strip cs) -> In c cs.
Proof.
  unfold strip. intros H. apply in_rev in H. apply lstrip_incl in H.
  apply in_rev in H. apply lstrip_incl in H. exact H.
Qed.

Lemma py_int_has_digit py s n :
  py_int py s = Some n ->
  exists c, In c (to_ascii py s) /\ is_digit c = true.
Proof.
  unfold py_int. cbv zeta.
  destruct ((0 <? int_max_str_digits py)%nat &&
            (int_max_str_digits py <? count_digits (strip (to_ascii py s)))%nat);
    [discriminate|].
  intros H.
  assert (S : exists cs m, (forall c, In c cs -> In c (strip (to_ascii py s)))
                           /\ int_digits cs 0 false = Some m).
  { destruct (strip (to_ascii py s)) as [|c cs].
    - discriminate H.
    - destruct c as [[] [] [] [] [] [] [] []];
        first [ destruct (int_digits cs 0 false) as [m|] eqn:E;
                [exists cs, m; split; [intros; right; assumption|exact E]
                |discriminate H]
              | eexists _, n; split; [intros c Hc; exact Hc|exact H] ]. }
  destruct S as (cs & m & Hsub & Hm).
  apply int_digits_has_digit in Hm as [Hm|(c & Hin & Hc)]; [discriminate|].
  exists c. split; [apply strip_incl, Hsub, Hin|exact Hc].
Qed.

(** X12.  A [PORT] that is ASCII text without a decimal digit in it
    (empty, blank, a word) makes [int] raise: the main block gets no port
    and the server does not start. *)
Theorem port_needs_a_digit py (env : gmap string string) s :
  reads_ascii py ->
  env !! "PORT" = Some s ->
  ascii_only s = true ->
  existsb is_digit (list_ascii_of_string s) = false ->
  main_port py env = None.
Proof.
  intros Hpy Hs Ha Hd. unfold main_port. rewrite Hs.
  destruct (py_int py s) as [n|] eqn:E; [|reflexivity].
  apply py_int_has_digit in E as (c & Hin & Hc).
  rewrite (Hpy s Ha) in Hin.
  assert (existsb is_digit (list_ascii_of_string s) = true)
    by (apply existsb_exists; eauto).
  congruence.
Qed.

End PortFacts.

(** ** The test suite on the application *)

Module SuiteFacts.
Import RoutingFacts.


Lemma client_get_home fw cfg w :
  client_get fw cfg w "/" = home cfg w.
Proof. reflexivity. Qed.

Lemma client_get_health fw cfg w :
  client_get fw cfg w "/health" = health cfg w.
Proof.
  unfold client_get, client_open. cbn [path method].
  rewrite url_match_health. cbn. unfold health, gethostname.
  destruct (hostname w); reflexivity.
Qed.

Lemma client_get_info fw cfg w :
  client_get fw cfg w "/api/info" = info cfg w.
Proof.
  unfold client_get, client_open. cbn [path method].
  rewrite url_match_info. cbn. unfold info, gethostname.
  destruct (hostname w); reflexivity.
Qed.

Lemma client_get_nonexistent fw cfg w :
  client_get fw cfg w "/nonexistent" = Return (not_found cfg (HTTPException 404)).
Proof.
  unfold client_get, client_open. cbn [path method].
  rewrite (url_match_no_route fw "/nonexistent" "GET"); [reflexivity|].
  unfold no_route. destruct (merge_slashes fw); reflexivity.
Qed.

(** X14.  The four tests of [TestHomeEndpoint] pass in every world,
    whatever the version the module was imported with. *)
Theorem home_tests_pass fw cfg w :
  test_home_returns_200 fw cfg w = Passed /\
  test_home_returns_json fw cfg w = Passed /\
  test_home_contains_version fw cfg w = Passed /\
  test_home_contains_required_fields fw cfg w = Passed.
Proof.
  unfold test_home_returns_200, test_home_returns_json,
    test_home_contains_version, test_home_contains_required_fields.
  rewrite client_get_home. cbn. rewrite String.eqb_refl. auto.
Qed.

(** X15.  The three tests of [TestHealthEndpoint] pass when the host
    name resolves, and end in an error (the [OSError] of [gethostname],
    not a failed assertion) when it does not. *)
Theorem health_tests_need_a_host_name fw cfg w :
  let expected := match hostname w with Some _ => Passed | None => Errored end in
  test_health_returns_200 fw cfg w = expected /\
  test_health_returns_healthy_status fw cfg w = expected /\
  test_health_contains_hostname fw cfg w = expected.
Proof.
  unfold test_health_returns_200, test_health_returns_healthy_status,
    test_health_contains_hostname.
  rewrite client_get_health. unfold health, gethostname.
  destruct (hostname w); cbn; auto.
Qed.

(** X16.  The three tests of [TestInfoEndpoint] pass when the host name
    resolves, and end in an error when it does not. *)
Theorem info_tests_need_a_host_name fw cfg w :
  let expected := match hostname w with Some _ => Passed | None => Errored end in
  test_info_returns_200 fw cfg w = expected /\
  test_info_contains_application_details fw cfg w = expected /\
  test_info_contains_system_details fw cfg w = expected.
Proof.
  unfold test_info_returns_200, test_info_contains_application_details,
    test_info_contains_system_details.
  rewrite client_get_info. unfold info, gethostname.
  destruct (hostname w); cbn; auto.
Qed.

(** X17.  The two tests of [TestErrorHandlers] pass in every world and
    under every release of the framework. *)
Theorem error_handler_tests_pass fw cfg w :
  test_404_handler fw cfg w = Passed /\
  test_404_includes_version fw cfg w = Passed.
Proof.
  unfold test_404_handler, test_404_includes_version.
  rewrite client_get_nonexistent. split; reflexivity.
Qed.

Lemma client_post_echo fw cfg w body :
  client_post_json fw cfg w "/api/echo" body =
  match loads fw body with
  | Value v => echo fw cfg w (mkRequest "POST" "/api/echo" ""
                 [("Content-Type", "application/json")] "application/json" body)
  | Invalid => Return (default_error_response 400)
  | TooDeep => Raise RecursionError
  end.
Proof.
  unfold client_post_json, client_open. cbn [path method].
  rewrite url_match_echo. cbn [mem existsb String.eqb Ascii.eqb Bool.eqb orb].
  cbn [view_functions]. unfold echo, get_json.
  change (is_json _) with true. cbn [data].
  destruct (loads fw body); reflexivity.
Qed.

(** X18.  The tests of [TestEchoEndpoint] turn on the JSON layer alone.
    Each passes when the framework parses what [json.dumps] wrote (the
    second one: to a value equal to the posted one).  When it is not
    JSON, the response is the 400 page: the status test fails and the
    two that read the body end in a decode error.  When it is nested too
    deep, all three end in the [RecursionError]. *)
Theorem echo_tests_turn_on_the_parser fw cfg w dumps :
  test_echo_returns_200 fw cfg w dumps =
    match loads fw (dumps (JObj [("message", JStr "test")])) with
    | Value _ => Passed
    | Invalid => Failed
    | TooDeep => Errored
    end /\
  test_echo_returns_posted_data fw cfg w dumps =
    (let test_data := JObj [("message", JStr "hello"); ("number", JInt 42)] in
     match loads fw (dumps test_data) with
     | Value v => if py_eq v test_data then Passed else Failed
     | Invalid => Errored
     | TooDeep => Errored
     end) /\
  test_echo_includes_version fw cfg w dumps =
    match loads fw (dumps (JObj [("test", JStr "data")])) with
    | Value _ => Passed
    | Invalid => Errored
    | TooDeep => Errored
    end.
Proof.
  unfold test_echo_returns_200, test_echo_returns_posted_data,
    test_echo_includes_version.
  cbv zeta. rewrite !client_post_echo. unfold echo, get_json.
  change (is_json _) with true. cbn [data].
  repeat split;
    match goal with |- context [loads fw ?b] => destruct (loads fw b) end;
    reflexivity.
Qed.

(** The whole suite on a current installation, a host with a name. *)
Lemma suite_passes :
  let fw := Sample.flask3 in
  let cfg := import_app Sample.released in
  let w := Sample.world ∅ Sample.noon in
  let dumps := SampleSuite.json_dumps in
  forallb (fun t => match t with Passed => true | _ => false end)
    [ test_home_returns_200 fw cfg w; test_home_returns_json fw cfg w;
      test_home_contains_version fw cfg w;
      test_home_contains_required_fields fw cfg w;
      test_health_returns_200 fw cfg w;
      test_health_returns_healthy_status fw cfg w;
      test_health_contains_hostname fw cfg w;
      test_echo_returns_200 fw cfg w dumps;
      test_echo_returns_posted_data fw cfg w dumps;
      test_echo_includes_version fw cfg w dumps;
      test_info_returns_200 fw cfg w;
      test_info_contains_application_details fw cfg w;
      test_info_contains_system_details fw cfg w;
      test_404_handler fw cfg w; test_404_includes_version fw cfg w ] = true /\
  SampleSuite.json_dumps Sample.hello = Sample.hello_text.
Proof. vm_compute. split; reflexivity. Qed.

End SuiteFacts.

(** ** The further properties on concrete requests *)

Module MoreExamples.
Import Sample Views PortFacts.

(** [/] on a host without a name. *)
Lemma home_always_serves_nameless :
  (path (get_ "/") = "/" /\ method (get_ "/") = "GET") /\
  (let r := full_dispatch_request flask3 (import_app ∅) (nameless noon) (get_ "/") in
   status r = 200 /\ content_type r = "application/json" /\
   field_names r = ["service"; "version"; "build_sha"; "status"; "timestamp"] /\
   field "service" r = Some (JStr "CI/CD Demo Application") /\
   field "status" r = Some (JStr "running") /\
   field "build_sha" r = Some (JStr (BUILD_SHA (import_app ∅)))).
Proof.
  split; [split; reflexivity|].
  apply (home_always_serves flask3 (import_app ∅) (nameless noon) (get_ "/"));
    reflexivity.
Defined.

(** [/health] on [web-1]. *)
Lemma health_reports_host_web_1 :
  (hostname (world ∅ noon) = Some "web-1" /\
   path (get_ "/health") = "/health" /\ method (get_ "/health") = "GET") /\
  (let r := full_dispatch_request flask3 (import_app ∅) (world ∅ noon)
              (get_ "/health") in
   status r = 200 /\ content_type r = "application/json" /\
   field_names r = ["status"; "version"; "hostname"; "timestamp"] /\
   field "status" r = Some (JStr "healthy") /\
   field "hostname" r = Some (JStr "web-1")).
Proof.
  split; [repeat split|].
  apply (health_reports_host flask3 (import_app ∅) (world ∅ noon)
           (get_ "/health") "web-1"); reflexivity.
Defined.

(** [/api/info] on [web-1]. *)
Lemma info_reports_build_and_host_web_1 :
  (hostname (world ∅ noon) = Some "web-1" /\
   path (get_ "/api/info") = "/api/info" /\ method (get_ "/api/info") = "GET") /\
  (let r := full_dispatch_request flask3 (import_app ∅) (world ∅ noon)
              (get_ "/api/info") in
   status r = 200 /\
   field_path ["application"; "name"] r = Some (JStr "CI/CD Demo Application") /\
   field_path ["application"; "build_sha"] r
     = Some (JStr (BUILD_SHA (import_app ∅))) /\
   field_path ["system"; "hostname"] r = Some (JStr "web-1") /\
   field_path ["system"; "python_version"] r
     = Some (JStr (sys_version (world ∅ noon)))).
Proof.
  split; [repeat split|].
  apply (info_reports_build_and_host flask3 (import_app ∅) (world ∅ noon)
           (get_ "/api/info") "web-1"); reflexivity.
Defined.

(** [/api/info] on a host without a name. *)
Lemma unresolved_host_is_500_info :
  (hostname (nameless noon) = None /\
   (path (get_ "/api/info") = "/health" \/ path (get_ "/api/info") = "/api/info") /\
   method (get_ "/api/info") = "GET") /\
  (let r := full_dispatch_request flask3 (import_app released) (nameless noon)
              (get_ "/api/info") in
   status r = 500 /\ content_type r = "application/json" /\
   field_names r = ["error"; "message"; "version"] /\
   field "error" r = Some (JStr "Internal Server Error") /\
   field "message" r = Some (JStr "An unexpected error occurred") /\
   field "version" r = Some (JStr (VERSION (import_app released)))).
Proof.
  split; [split; [reflexivity|split; [right; reflexivity|reflexivity]]|].
  apply (unresolved_host_is_500 flask3 (import_app released) (nameless noon)
           (get_ "/api/info")); [reflexivity|right; reflexivity|reflexivity].
Defined.

(** A 500 seen on [/health]: the host has no name. *)
Lemma only_the_host_name_fails_health :
  status (full_dispatch_request flask3 (import_app ∅) (nameless noon)
            (get_ "/health")) = 500 /\
  ((hostname (nameless noon) = None /\
    (path (get_ "/health") = "/health" \/ path (get_ "/health") = "/api/info")) \/
   (path (get_ "/health") = "/api/echo" /\ method (get_ "/health") = "POST" /\
    is_json (get_ "/health") = true /\
    loads flask3 (data (get_ "/health")) = TooDeep)).
Proof.
  split; [reflexivity|].
  apply (only_the_host_name_fails flask3 (import_app ∅) (nameless noon)
           (get_ "/health")). reflexivity.
Defined.

(** The build of a release on [/] and [/api/info]. *)
Lemma build_sha_of_the_import_abc123 :
  let env : gmap string string := {[ "BUILD_SHA" := "abc123" ]} in
  let home_ := full_dispatch_request flask3 (import_app env) (nameless noon)
                 (get_ "/") in
  let info_ := full_dispatch_request flask3 (import_app env) (world ∅ noon)
                 (get_ "/api/info") in
  (status home_ = 200 /\ field "build_sha" home_ = Some (JStr "abc123")) /\
  (status info_ = 200 /\
   field_path ["application"; "build_sha"] info_ = Some (JStr "abc123")).
Proof.
  split.
  - destruct (build_sha_of_the_import {[ "BUILD_SHA" := "abc123" ]} flask3
                (nameless noon) (get_ "/")) as (H & _).
    exact (H eq_refl eq_refl).
  - destruct (build_sha_of_the_import {[ "BUILD_SHA" := "abc123" ]} flask3
                (world ∅ noon) (get_ "/api/info")) as (_ & H & _).
    apply (H eq_refl eq_refl). discriminate.
Defined.

(** DELETE [/health]. *)
Lemma get_routes_refuse_delete :
  ((path (mkRequest "DELETE" "/health" "" [] "" "") = "/" \/
    path (mkRequest "DELETE" "/health" "" [] "" "") = "/health" \/
    path (mkRequest "DELETE" "/health" "" [] "" "") = "/api/info") /\
   String.eqb (method (mkRequest "DELETE" "/health" "" [] "" "")) "GET" = false) /\
  (let r := full_dispatch_request flask3 (import_app ∅) (world ∅ noon)
              (mkRequest "DELETE" "/health" "" [] "" "") in
   r = default_error_response 405 /\ is_json_response r = false).
Proof.
  split; [split; [right; left; reflexivity|reflexivity]|].
  apply (get_routes_refuse_other_methods flask3 (import_app ∅) (world ∅ noon)
           (mkRequest "DELETE" "/health" "" [] "" ""));
    [right; left; reflexivity|discriminate..].
Defined.

(** The same body posted to a host with a name and to one without. *)
Lemma home_and_echo_ignore_the_host_posted :
  (utcnow (nameless noon) = utcnow (world production noon) /\
   (path (post_json "/api/echo" hello_text) = "/" \/
    path (post_json "/api/echo" hello_text) = "/api/echo")) /\
  full_dispatch_request flask3 (import_app ∅) (nameless noon)
    (post_json "/api/echo" hello_text)
  = full_dispatch_request flask3 (import_app ∅) (world production noon)
      (post_json "/api/echo" hello_text).
Proof.
  split; [split; [reflexivity|right; reflexivity]|].
  apply (home_and_echo_ignore_the_host flask3 (import_app ∅)
           (world production noon) (nameless noon)
           (post_json "/api/echo" hello_text)); [reflexivity|right; reflexivity].
Defined.

(** The same body with another query string and one more header. *)
Lemma echo_reads_body_and_media_type_posted :
  let req1 := post_json "/api/echo" hello_text in
  let req2 := mkRequest "POST" "/api/echo" "trace=1"
                [("X-Trace", "7"); ("Content-Type", "application/json")]
                "application/json" hello_text in
  (path req1 = "/api/echo" /\ path req2 = "/api/echo" /\
   method req2 = method req1 /\ mimetype req2 = mimetype req1 /\
   data req2 = data req1) /\
  full_dispatch_request flask3 (import_app ∅) (world ∅ noon) req2
  = full_dispatch_request flask3 (import_app ∅) (world ∅ noon) req1.
Proof.
  split; [repeat split|].
  apply (echo_reads_body_and_media_type flask3 (import_app ∅) (world ∅ noon)
           (post_json "/api/echo" hello_text)); reflexivity.
Defined.

Lemma cpython_reads_ascii : reads_ascii cpython.
Proof. intros s _. reflexivity. Defined.

(** [PORT=http]. *)
Lemma port_needs_a_digit_http :
  (reads_ascii cpython /\
   ({[ "PORT" := "http" ]} : gmap string string) !! "PORT" = Some "http" /\
   ascii_only "http" = true /\
   existsb is_digit (list_ascii_of_string "http") = false) /\
  main_port cpython {[ "PORT" := "http" ]} = None.
Proof.
  split; [split; [exact cpython_reads_ascii|repeat split]|].
  apply (port_needs_a_digit cpython {[ "PORT" := "http" ]} "http");
    first [exact cpython_reads_ascii|reflexivity].
Defined.

(** [PORT] set to 8080, to 70000 and to -1. *)
Lemma port_is_what_PORT_spells_examples :
  reads_ascii cpython /\
  py_str 8080 = "8080" /\ py_str (-1) = "-1" /\
  main_port cpython (<["PORT" := "8080"]> ∅) = Some 8080 /\
  main_port cpython (<["PORT" := "70000"]> ∅) = Some 70000 /\
  main_port cpython (<["PORT" := "-1"]> ∅) = Some (-1).
Proof.
  destruct (port_is_what_PORT_spells cpython ∅ cpython_reads_ascii) as [_ H].
  assert (B : forall z, Z.abs z < 10 ^ 5 ->
              int_max_str_digits cpython = 0%nat \/
              Z.abs z < 10 ^ Z.of_nat (int_max_str_digits cpython)).
  { intros z Hz. right. eapply Z.lt_le_trans; [exact Hz|].
    apply Z.pow_le_mono_r; [lia|]. cbn. lia. }
  split; [exact cpython_reads_ascii|].
  split; [reflexivity|]. split; [reflexivity|].
  split; [apply (H 8080), B; reflexivity|].
  split; [apply (H 70000), B; reflexivity|apply (H (-1)), B; reflexivity].
Defined.

End MoreExamples.
